(** * FAB security manager override: sessions, user loading, start-up configuration

    A shallow embedding of
    [airflow/auth/managers/fab/security_manager/override.py]
    (class [FabAirflowSecurityManagerOverride]) and the properties of its
    password reset, session revocation, user loading and start-up
    initialisation.

    Python objects that the methods mutate (the user table, the session
    table, the flash queue, [flask.g], [app.config], the manager's own
    attributes) are fields of explicit state records, threaded through a
    small state-and-exception monad.  A raised exception keeps the state as
    it was at the point of the raise, as in Python. *)

From Stdlib Require Import ZArith Ascii String List Decimal DecimalString DecimalZ.
From stdpp Require Import base decidable option list strings gmap.

Local Open Scope string_scope.
Local Open Scope Z_scope.
Local Open Scope list_scope.

(** ** Python values and exceptions *)

(** A [str] is a sequence of Unicode code points.  [bytes] are a [string],
    one character for each byte. *)
Abbreviation Text := (list N).

(** The text of an ASCII literal. *)
Definition text (s : string) : Text := map N_of_ascii (list_ascii_of_string s).

(** A [float]: the finite value [m * 2^e], an infinity, or a NaN. *)
Inductive Float :=
  | Finite (m e : Z)
  | Infinity (negative : bool)
  | NaN.

(** The values that reach the modelled methods as identities (session
    payload entries, JWT claims, arguments of [load_user]): [None],
    booleans, integers, floats, texts and bytes.  Containers and objects
    of other classes are not among them. *)
Inductive PyVal :=
  | PyNone
  | PyBool (b : bool)
  | PyInt (z : Z)
  | PyFloat (f : Float)
  | PyStr (s : Text)
  | PyBytes (b : string).

(** The value [m * 2^e] of a number; a boolean is the integer 0 or 1. *)
Definition number (v : PyVal) : option (Z * Z) :=
  match v with
  | PyBool b => Some (if b then 1 else 0, 0)
  | PyInt z => Some (z, 0)
  | PyFloat (Finite m e) => Some (m, e)
  | _ => None
  end.

(** [a == b].  Numbers are equal when their values are, whatever their
    types ([7.0 == 7], [True == 1]); an infinity equals the infinity of its
    sign and a NaN equals nothing; [None], a text and bytes equal only a
    value of their own type with the same content. *)
Definition py_eq (a b : PyVal) : bool :=
  match number a, number b with
  | Some (m1, e1), Some (m2, e2) =>
      let e := Z.min e1 e2 in
      m1 * 2 ^ (e1 - e) =? m2 * 2 ^ (e2 - e)
  | None, None =>
      match a, b with
      | PyNone, PyNone => true
      | PyFloat (Infinity s1), PyFloat (Infinity s2) => Bool.eqb s1 s2
      | PyStr s1, PyStr s2 => bool_decide (s1 = s2)
      | PyBytes b1, PyBytes b2 => bool_decide (b1 = b2)
      | _, _ => false
      end
  | _, _ => false
  end.

Inductive Exn :=
  | Exception (msg : string)      (* raise Exception("...") *)
  | ValueError                    (* int("abc"), int(float("nan")) *)
  | TypeError                     (* int(None), iterating a non-iterable *)
  | OverflowError                 (* int(float("inf")) *)
  | AttributeError                (* attribute access on None *)
  | KeyError (key : string)       (* d[key] on a missing key *)
  | UnpicklingError.              (* serializer.loads on a corrupt payload *)

#[global] Instance Exn_eq_dec : EqDecision Exn.
Proof. solve_decision. Defined.

Inductive Result (A : Type) :=
  | Ok (a : A)
  | Raise (e : Exn).
Arguments Ok {A} a.
Arguments Raise {A} e.

Definition is_ok {A} (r : Result A) : bool :=
  match r with Ok _ => true | Raise _ => false end.

(** ** State and exception monad *)

Definition M (S A : Type) : Type := S -> Result A * S.

Definition ret {S A} (a : A) : M S A := fun s => (Ok a, s).
Definition raise {S A} (e : Exn) : M S A := fun s => (Raise e, s).
Definition bind {S A B} (m : M S A) (k : A -> M S B) : M S B :=
  fun s => match m s with
           | (Ok a, s') => k a s'
           | (Raise e, s') => (Raise e, s')
           end.
Definition lift {S A} (r : Result A) : M S A := fun s => (r, s).
Definition gets {S A} (f : S -> A) : M S A := fun s => (Ok (f s), s).
Definition reads {S A} (f : S -> Result A) : M S A := fun s => (f s, s).
Definition modify {S} (f : S -> S) : M S unit := fun s => (Ok tt, f s).

(** stdpp's monad notations: [x ← m; k] and [m;; k]. *)
#[global] Instance M_ret {S} : MRet (M S) := fun A a => ret a.
#[global] Instance M_bind {S} : MBind (M S) := fun A B k m => bind m k.

(** ** The builtins [str] and [int]

    [int(x)] as CPython computes it.  A text first goes through
    [_PyUnicode_TransformDecimalAndSpaceToASCII], which turns white space
    and decimal digits from outside ASCII into ASCII; the result, like
    bytes, is parsed by [PyLong_FromString] in base 10.  The guard on
    conversions of more than 4300 digits ([sys.set_int_max_str_digits]) is
    a setting of the interpreter; the model is the interpreter with the
    guard off. *)

(** The decimal text of an integer: optional minus sign and digits. *)
Definition decimal_string (n : Z) : string :=
  NilZero.string_of_int (Z.to_int n).

(** [str(n)] for an integer. *)
Definition py_str (n : Z) : Text := text (decimal_string n).

(** [Py_ISSPACE]: the white space of the C locale, which
    [PyLong_FromString] skips at both ends. *)
Definition Py_ISSPACE (c : ascii) : bool :=
  let n := nat_of_ascii c in
  ((9 <=? n)%nat && (n <=? 13)%nat) || (n =? 32)%nat.

Fixpoint lstrip (s : list ascii) : list ascii :=
  match s with
  | c :: s' => if Py_ISSPACE c then lstrip s' else s
  | [] => []
  end.

Fixpoint rstrip (s : list ascii) : list ascii :=
  match s with
  | [] => []
  | c :: s' =>
      match rstrip s' with
      | [] => if Py_ISSPACE c then [] else [c]
      | r => c :: r
      end
  end.

(** Digits with single underscores allowed between two digits.
    [after_digit] tells whether the previous character was a digit: an
    underscore or the end of the text is accepted only then. *)
Fixpoint parse_digits (after_digit : bool) (s : list ascii) : option uint :=
  match s with
  | [] => if after_digit then Some Nil else None
  | c :: s' =>
      if Ascii.eqb c "_"%char
      then (if after_digit then parse_digits false s' else None)
      else uint_of_char c (parse_digits true s')
  end.

(** [PyLong_FromString(s, &end, 10)] with the test that [end] is the end
    of [s]: white space, optional sign, digits, white space. *)
Definition long_from_string (s : list ascii) : option Z :=
  match lstrip (rstrip s) with
  | "-"%char :: ds => d ← parse_digits false ds; Some (Z.of_int (Neg d))
  | "+"%char :: ds => d ← parse_digits false ds; Some (Z.of_int (Pos d))
  | ds => d ← parse_digits false ds; Some (Z.of_int (Pos d))
  end.

(** [Py_UNICODE_ISSPACE]: the code points whose bidirectional type is WS,
    B or S, or whose category is Zs. *)
Definition Py_UNICODE_ISSPACE (ch : N) : bool :=
  (((0x09 <=? ch) && (ch <=? 0x0D)) || ((0x1C <=? ch) && (ch <=? 0x20))
   || (ch =? 0x85) || (ch =? 0xA0) || (ch =? 0x1680)
   || ((0x2000 <=? ch) && (ch <=? 0x200A))
   || (ch =? 0x2028) || (ch =? 0x2029) || (ch =? 0x202F)
   || (ch =? 0x205F) || (ch =? 0x3000))%N.

(** The decimal digits outside ASCII are those of the interpreter's Unicode
    database, which grows from one version of the interpreter to the next.
    [decimal_digit ch] is the value of the digit [ch], a number below 10,
    or [None] when [ch] is no decimal digit; the methods are modelled for
    any database. *)
Class UnicodeData := { decimal_digit : N -> option N }.

(** [Py_UNICODE_TODECIMAL] *)
Definition Py_UNICODE_TODECIMAL {unicode : UnicodeData} (ch : N) : option N :=
  (if ch <? 128
   then (if (48 <=? ch) && (ch <=? 57) then Some (ch - 48) else None)
   else decimal_digit ch)%N.

(** The loop of [_PyUnicode_TransformDecimalAndSpaceToASCII]: it stops
    with a question mark at the first code point that is neither ASCII,
    white space nor a decimal digit. *)
Fixpoint transform_chars {unicode : UnicodeData} (s : Text) : list ascii :=
  match s with
  | [] => []
  | ch :: s' =>
      if (ch <? 127)%N then ascii_of_N ch :: transform_chars s'
      else if Py_UNICODE_ISSPACE ch then " "%char :: transform_chars s'
      else match Py_UNICODE_TODECIMAL ch with
           | Some decimal => ascii_of_N (48 + decimal) :: transform_chars s'
           | None => ["?"%char]
           end
  end.

(** An ASCII text is returned as it is. *)
Definition transform_decimal_and_space_to_ascii {unicode : UnicodeData}
    (s : Text) : list ascii :=
  if forallb (fun ch => ch <? 128)%N s then map ascii_of_N s
  else transform_chars s.

(** [int(s)] for a text [s]. *)
Definition int_of_str {unicode : UnicodeData} (s : Text) : option Z :=
  long_from_string (transform_decimal_and_space_to_ascii s).

(** [int(b)] for bytes [b]. *)
Definition int_of_bytes (b : string) : option Z :=
  long_from_string (list_ascii_of_string b).

(** [int(f)] for a float [f]: the value truncated toward zero. *)
Definition int_of_float (f : Float) : Result Z :=
  match f with
  | Finite m e => Ok (if 0 <=? e then m * 2 ^ e else Z.quot m (2 ^ (- e)))
  | Infinity _ => Raise OverflowError
  | NaN => Raise ValueError
  end.

(** [int(v)]. *)
Definition py_int {unicode : UnicodeData} (v : PyVal) : Result Z :=
  match v with
  | PyNone => Raise TypeError
  | PyBool b => Ok (if b then 1 else 0)
  | PyInt z => Ok z
  | PyFloat f => int_of_float f
  | PyStr s => match int_of_str s with
               | Some z => Ok z
               | None => Raise ValueError
               end
  | PyBytes b => match int_of_bytes b with
                 | Some z => Ok z
                 | None => Raise ValueError
                 end
  end.

(** ** Data model *)

(** A row of the user table ([airflow.auth.managers.fab.models.User]); the
    password column holds the hash, never the clear text. *)
Record User := mkUser {
  user_id : Z;
  username : string;
  password : string;
  active : bool;
}.

#[global] Instance User_eq_dec : EqDecision User.
Proof. solve_decision. Defined.

Definition set_password (h : string) (u : User) : User :=
  {| user_id := user_id u; username := username u; password := h;
     active := active u |}.

(** A row of the [session] table behind the database session interface. *)
Record SessionRecord := mkSession {
  sr_id : Z;                (* primary key *)
  session_id : string;
  data : string;            (* the serialized payload *)
  expiry : Z;
}.

#[global] Instance SessionRecord_eq_dec : EqDecision SessionRecord.
Proof. solve_decision. Defined.

(** What a payload deserializes to: the session dictionary. *)
Abbreviation SessionDetails := (gmap string PyVal).

(** [d.get(k)]: [None] when the key is missing. *)
Definition dict_get (d : SessionDetails) (k : string) : PyVal :=
  default PyNone (d !! k).

(** [app.session_interface]: the database-backed interface of
    [airflow.www.session], or Flask's signed-cookie default. *)
Inductive SessionInterface :=
  | AirflowDatabaseSessionInterface
  | SecureCookieSessionInterface.

#[global] Instance SessionInterface_eq_dec : EqDecision SessionInterface.
Proof. solve_decision. Defined.

(** The two messages that [reset_user_sessions] flashes, with the values
    interpolated into them. *)
Inductive FlashMessage :=
  | SessionsNotDeleted (uname : string) (num_sessions : Z)
  | SecureCookieBackend (uname : string).

Record Flash := mkFlash { message : FlashMessage; category : string }.

(** [flask.g.user]: not assigned, or assigned a user or [None]. *)
Inductive GUser :=
  | Unset
  | Assigned (u : option User).

(** Entries of the call log: the manager methods in the order in which
    they are entered.  The log is ghost state, it only records order. *)
Inductive Call :=
  | CallGetUserById (pk : Z)
  | CallResetUserSessions (uid : Z)
  | CallUpdateUser (uid : Z).

#[global] Instance Call_eq_dec : EqDecision Call.
Proof. solve_decision. Defined.

Record World := mkWorld {
  users : list User;                    (* the durable user table *)
  session_interface : SessionInterface;
  sessions : list SessionRecord;        (* the session table, in query order *)
  flashes : list Flash;
  g_user : GUser;
  calls : list Call;
}.

Definition set_users (f : list User -> list User) (w : World) : World :=
  mkWorld (f (users w)) (session_interface w) (sessions w) (flashes w)
          (g_user w) (calls w).
Definition set_sessions (f : list SessionRecord -> list SessionRecord)
    (w : World) : World :=
  mkWorld (users w) (session_interface w) (f (sessions w)) (flashes w)
          (g_user w) (calls w).
Definition add_flash (fl : Flash) (w : World) : World :=
  mkWorld (users w) (session_interface w) (sessions w) (flashes w ++ [fl])
          (g_user w) (calls w).
Definition set_g_user (u : option User) (w : World) : World :=
  mkWorld (users w) (session_interface w) (sessions w) (flashes w)
          (Assigned u) (calls w).
Definition log_call (c : Call) (w : World) : World :=
  mkWorld (users w) (session_interface w) (sessions w) (flashes w)
          (g_user w) (calls w ++ [c]).

(** [MAX_NUM_DATABASE_USER_SESSIONS = 50000] *)
Definition MAX_NUM_DATABASE_USER_SESSIONS : Z := 50000.

(** ** Collaborators *)

(** [flash(Markup(...), category)] *)
Definition flash (m : FlashMessage) (cat : string) : M World unit :=
  modify (add_flash (mkFlash m cat)).

(** [session.delete(s)]: the row [s] leaves the table. *)
Definition session_delete (s : SessionRecord) : M World unit :=
  modify (set_sessions (filter (fun r => r <> s))).

Definition find_user (pk : Z) (us : list User) : option User :=
  List.find (fun u => user_id u =? pk) us.

(** Modelled from the spec: [get_user_by_id] is inherited from the base
    security manager, which is not among the sources.  Section 4.5 step 1,
    "Load user by id", with an absent user given as Python's [None]
    (section 4.4 leaves it to the caller what an unknown identity means).
    It reads the user table and writes nothing. *)
Definition get_user_by_id (pk : Z) : M World (option User) :=
  modify (log_call (CallGetUserById pk));;
  gets (fun w => find_user pk (users w)).

Definition store_user (u : User) (us : list User) : list User :=
  match find_user (user_id u) us with
  | Some _ => map (fun r => if user_id r =? user_id u then u else r) us
  | None => us ++ [u]
  end.

(** Modelled from the spec: [update_user] is inherited from the base
    security manager, which is not among the sources.  Section 4.5 step 4,
    "Persist the updated user record": the row with the user's key is
    replaced by the given record, durably. *)
Definition update_user (u : User) : M World unit :=
  modify (log_call (CallUpdateUser (user_id u)));;
  modify (set_users (store_user u)).

(** ** The methods of [FabAirflowSecurityManagerOverride] *)

(** [itsdangerous.want_bytes]: the payload column is already bytes. *)
Definition want_bytes (s : string) : string := s.

Section Methods.

(** [werkzeug.security.generate_password_hash] and the session
    interface's [serializer.loads] are library functions; the methods are
    modelled for any behaviour of the two. *)
Variable generate_password_hash : string -> string.
Variable loads : string -> Result SessionDetails.

(** The body of [for s in session.query(user_session_model): ...], over
    the rows the query returned. *)
Fixpoint for_each_session (user : User) (rows : list SessionRecord)
    : M World unit :=
  match rows with
  | [] => mret tt
  | s :: rows' =>
      session_details ← lift (loads (want_bytes (data s)));
      (if py_eq (dict_get session_details "_user_id") (PyInt (user_id user))
       then session_delete s
       else mret tt);;
      for_each_session user rows'
  end.

Definition reset_user_sessions (user : User) : M World unit :=
  modify (log_call (CallResetUserSessions (user_id user)));;
  interface ← gets session_interface;
  match interface with
  | AirflowDatabaseSessionInterface =>
      num_sessions ← gets (fun w => Z.of_nat (length (sessions w)));
      if num_sessions >? MAX_NUM_DATABASE_USER_SESSIONS
      then flash (SessionsNotDeleted (username user) num_sessions) "warning"
      else rows ← gets sessions; for_each_session user rows
  | SecureCookieSessionInterface =>
      flash (SecureCookieBackend (username user)) "warning"
  end.

(** The assignment [user.password = ...] is on the loaded object; the
    table row changes when [update_user] stores the object. *)
Definition reset_password (userid : Z) (pw : string) : M World unit :=
  user ← get_user_by_id userid;
  match user with
  | None => raise AttributeError          (* user.password = ... on None *)
  | Some user =>
      let user := set_password (generate_password_hash pw) user in
      reset_user_sessions user;;
      update_user user
  end.

End Methods.

Definition load_user {unicode : UnicodeData} (user_id : PyVal)
    : M World (option User) :=
  pk ← lift (py_int user_id);
  get_user_by_id pk.

(** [jwt_data["sub"]] *)
Definition subscript (d : gmap string PyVal) (k : string) : Result PyVal :=
  match d !! k with
  | Some v => Ok v
  | None => Raise (KeyError k)
  end.

Definition load_user_jwt {unicode : UnicodeData}
    (_jwt_header jwt_data : gmap string PyVal) : M World (option User) :=
  identity ← lift (subscript jwt_data "sub");
  user ← load_user identity;
  modify (set_g_user user);;
  mret user.

(** ** Start-up configuration *)

(** An entry of [OAUTH_PROVIDERS]: a dictionary with the keys ["name"] and
    ["remote_app"], and possibly ["whitelist"].  A descriptor that lacks
    ["name"] or ["remote_app"], for which the loop of [_init_auth] raises
    [KeyError], is not among the values. *)
Record Provider := mkProvider {
  name : string;
  remote_app : string;
  whitelist : option (list string);
}.

(** The values stored in [app.config]. *)
Inductive CfgVal :=
  | VNone
  | VBool (b : bool)
  | VInt (z : Z)
  | VStr (s : string)
  | VDict (d : list (string * list string))
  | VProviders (ps : list Provider).

Abbreviation Config := (gmap string CfgVal).

(** [flask_appbuilder.const] *)
Definition AUTH_OID : Z := 0.
Definition AUTH_DB : Z := 1.
Definition AUTH_LDAP : Z := 2.
Definition AUTH_REMOTE_USER : Z := 3.
Definition AUTH_OAUTH : Z := 4.

(** [v == n] for an integer constant [n]; a Python boolean is an integer. *)
Definition eq_int (v : CfgVal) (n : Z) : bool :=
  match v with
  | VInt z => z =? n
  | VBool b => (if b then 1 else 0) =? n
  | _ => false
  end.

(** [app.config.setdefault(k, v)]: the entry is written only when the key
    is missing. *)
Definition with_default (k : string) (v : CfgVal) (cfg : Config) : Config :=
  match cfg !! k with
  | Some _ => cfg
  | None => <[k := v]> cfg
  end.

Definition setdefault (k : string) (v : CfgVal) : M Config unit :=
  modify (with_default k v).

(** [app.config[k]] *)
Definition config_item (k : string) (cfg : Config) : Result CfgVal :=
  match cfg !! k with
  | Some v => Ok v
  | None => Raise (KeyError k)
  end.

(** The properties [auth_type], [auth_role_public], [oauth_providers]. *)
Definition auth_type : Config -> Result CfgVal := config_item "AUTH_TYPE".
Definition auth_role_public : Config -> Result CfgVal :=
  config_item "AUTH_ROLE_PUBLIC".
Definition oauth_providers : Config -> Result CfgVal :=
  config_item "OAUTH_PROVIDERS".

Definition no_ldap_server : string :=
  "No AUTH_LDAP_SERVER defined on config with AUTH_LDAP authentication type.".

Definition _init_config : M Config unit :=
  (* Base Security Config *)
  setdefault "AUTH_ROLE_ADMIN" (VStr "Admin");;
  setdefault "AUTH_ROLE_PUBLIC" (VStr "Public");;
  setdefault "AUTH_TYPE" (VInt AUTH_DB);;
  (* Self Registration *)
  setdefault "AUTH_USER_REGISTRATION" (VBool false);;
  role_public ← reads auth_role_public;
  setdefault "AUTH_USER_REGISTRATION_ROLE" role_public;;
  setdefault "AUTH_USER_REGISTRATION_ROLE_JMESPATH" VNone;;
  (* Role Mapping *)
  setdefault "AUTH_ROLES_MAPPING" (VDict []);;
  setdefault "AUTH_ROLES_SYNC_AT_LOGIN" (VBool false);;
  setdefault "AUTH_API_LOGIN_ALLOW_MULTIPLE_PROVIDERS" (VBool false);;
  (* LDAP Config *)
  t ← reads auth_type;
  (if eq_int t AUTH_LDAP then
     server ← gets (fun cfg : Config => cfg !! "AUTH_LDAP_SERVER");
     match server with
     | None => raise (Exception no_ldap_server)
     | Some _ =>
         setdefault "AUTH_LDAP_SEARCH" (VStr "");;
         setdefault "AUTH_LDAP_SEARCH_FILTER" (VStr "");;
         setdefault "AUTH_LDAP_APPEND_DOMAIN" (VStr "");;
         setdefault "AUTH_LDAP_USERNAME_FORMAT" (VStr "");;
         setdefault "AUTH_LDAP_BIND_USER" (VStr "");;
         setdefault "AUTH_LDAP_BIND_PASSWORD" (VStr "");;
         (* TLS options *)
         setdefault "AUTH_LDAP_USE_TLS" (VBool false);;
         setdefault "AUTH_LDAP_ALLOW_SELF_SIGNED" (VBool false);;
         setdefault "AUTH_LDAP_TLS_DEMAND" (VBool false);;
         setdefault "AUTH_LDAP_TLS_CACERTDIR" (VStr "");;
         setdefault "AUTH_LDAP_TLS_CACERTFILE" (VStr "");;
         setdefault "AUTH_LDAP_TLS_CERTFILE" (VStr "");;
         setdefault "AUTH_LDAP_TLS_KEYFILE" (VStr "");;
         (* Mapping options *)
         setdefault "AUTH_LDAP_UID_FIELD" (VStr "uid");;
         setdefault "AUTH_LDAP_GROUP_FIELD" (VStr "memberOf");;
         setdefault "AUTH_LDAP_FIRSTNAME_FIELD" (VStr "givenName");;
         setdefault "AUTH_LDAP_LASTNAME_FIELD" (VStr "sn");;
         setdefault "AUTH_LDAP_EMAIL_FIELD" (VStr "mail")
     end
   else mret tt);;
  (* Rate limiting *)
  setdefault "AUTH_RATE_LIMITED" (VBool true);;
  setdefault "AUTH_RATE_LIMIT" (VStr "5 per 40 second").

(** The object that [self.oauth.register] returns for a provider. *)
Record OAuthRemote := mkRemote {
  remote_name : string;
  remote_settings : string;
  _tokengetter : bool;              (* the token getter has been attached *)
}.

(** The attributes of the manager that [_init_auth] assigns.
    [oauth_allow_list] is the class attribute, a dictionary that starts
    empty and is shared by every instance. *)
Record Manager := mkManager {
  oid : bool;                                   (* [self.oid] is set *)
  oauth : bool;                                 (* [self.oauth] is set *)
  oauth_remotes : gmap string OAuthRemote;
  oauth_user_info : bool;                       (* [self.oauth_user_info] is set *)
  oauth_allow_list : gmap string (list string);
}.

Definition set_oid (m : Manager) : Manager :=
  mkManager true (oauth m) (oauth_remotes m) (oauth_user_info m)
            (oauth_allow_list m).
Definition set_oauth (m : Manager) : Manager :=
  mkManager (oid m) true (oauth_remotes m) (oauth_user_info m)
            (oauth_allow_list m).
Definition set_oauth_remotes
    (f : gmap string OAuthRemote -> gmap string OAuthRemote) (m : Manager)
    : Manager :=
  mkManager (oid m) (oauth m) (f (oauth_remotes m)) (oauth_user_info m)
            (oauth_allow_list m).
Definition set_oauth_user_info (m : Manager) : Manager :=
  mkManager (oid m) (oauth m) (oauth_remotes m) true (oauth_allow_list m).
Definition set_oauth_allow_list
    (f : gmap string (list string) -> gmap string (list string)) (m : Manager)
    : Manager :=
  mkManager (oid m) (oauth m) (oauth_remotes m) (oauth_user_info m)
            (f (oauth_allow_list m)).

(** The body of [for provider in self.oauth_providers: ...]. *)
Fixpoint for_each_provider (providers : list Provider) : M Manager unit :=
  match providers with
  | [] => mret tt
  | provider :: providers' =>
      let provider_name := name provider in
      let obj_provider := mkRemote provider_name (remote_app provider) true in
      user_info ← gets oauth_user_info;
      (if negb user_info then modify set_oauth_user_info else mret tt);;
      (* Whitelist only users with matching emails *)
      match whitelist provider with
      | Some wl => modify (set_oauth_allow_list <[provider_name := wl]>)
      | None => mret tt
      end;;
      modify (set_oauth_remotes <[provider_name := obj_provider]>);;
      for_each_provider providers'
  end.

(** [for provider in self.oauth_providers: ...] for whatever value the
    configuration holds.  A list of descriptors gives one round for each;
    an empty dictionary or text gives no round; a dictionary or text that
    is not empty yields its keys or characters, which are texts, and
    [provider["name"]] on a text raises [TypeError]; the other values are
    not iterable. *)
Definition for_each_of (providers : CfgVal) : M Manager unit :=
  match providers with
  | VProviders ps => for_each_provider ps
  | VDict [] | VStr EmptyString => mret tt
  | VDict _ | VStr _ | VNone | VBool _ | VInt _ => raise TypeError
  end.

Definition _init_auth (cfg : Config) : M Manager unit :=
  t ← lift (auth_type cfg);
  (if eq_int t AUTH_OID then modify set_oid else mret tt);;
  t ← lift (auth_type cfg);
  if eq_int t AUTH_OAUTH then
    modify set_oauth;;
    modify (set_oauth_remotes (fun _ => ∅));;
    providers ← lift (oauth_providers cfg);
    for_each_of providers
  else mret tt.

(** Modelled from the spec: the allow-list check of the OAuth login path is
    in the OAuth module, which is not among the sources.  Section 4.3: a
    provider with no registered allow-list is allowed unconditionally, a
    registered one allows exactly the members of its list. *)
Definition is_allowed (registry : gmap string (list string))
    (provider_name identity : string) : bool :=
  match registry !! provider_name with
  | None => true
  | Some wl => bool_decide (identity ∈ wl)
  end.

(** ** Further configuration properties *)

(** The properties [auth_user_registration], [is_auth_limited] and
    [auth_rate_limit]: each is [app.config[...]] on its key. *)
Definition auth_user_registration : Config -> Result CfgVal :=
  config_item "AUTH_USER_REGISTRATION".
Definition is_auth_limited : Config -> Result CfgVal :=
  config_item "AUTH_RATE_LIMITED".
Definition auth_rate_limit : Config -> Result CfgVal :=
  config_item "AUTH_RATE_LIMIT".

(** ** Views and data models *)

(** The view classes of the manager, each named by the attribute that
    holds it: the keyword arguments of the constructor, and
    [resourcemodelview], the class that the cached property imports. *)
Inductive ViewClass :=
  | actionmodelview | authdbview | authldapview | authoauthview
  | authoidview | authremoteuserview | permissionmodelview
  | registeruserdbview | registeruseroauthview | registerusermodelview
  | registeruseroidview | resetmypasswordview | resetpasswordview
  | rolemodelview | userinfoeditview | userdbmodelview | userldapmodelview
  | useroauthmodelview | useroidmodelview | userremoteusermodelview
  | userstatschartview | resourcemodelview.

#[global] Instance ViewClass_eq_dec : EqDecision ViewClass.
Proof. solve_decision. Defined.

(** A view object: an instance of one of the classes, or the object that
    was passed as [registeruser_view]. *)
Inductive View :=
  | Instance (c : ViewClass)
  | GivenView (label : string).

(** [self.user_view] holds a class until [add_view] returns the instance. *)
Inductive UserView :=
  | UserViewClass (c : ViewClass)
  | UserViewInstance (c : ViewClass).

(** The calls on [appbuilder] and on the limiter, in order. *)
Inductive AppCall :=
  | add_view_no_menu (v : View)
  | add_view (c : ViewClass) (view_name icon label category : string)
             (category_icon category_label : option string)
  | add_separator (category : string)
  | limit (rate : CfgVal) (methods : list string) (blueprint_of : View)
  | set_related_views (of_view : ViewClass) (classes : list ViewClass).

Record ViewState := mkViewState {
  registeruser_view : option View;
  auth_view : option View;
  user_view : option UserView;
  appcalls : list AppCall;
}.

Definition set_registeruser_view (v : View) (s : ViewState) : ViewState :=
  mkViewState (Some v) (auth_view s) (user_view s) (appcalls s).
Definition set_auth_view (v : View) (s : ViewState) : ViewState :=
  mkViewState (registeruser_view s) (Some v) (user_view s) (appcalls s).
Definition set_user_view (v : UserView) (s : ViewState) : ViewState :=
  mkViewState (registeruser_view s) (auth_view s) (Some v) (appcalls s).
Definition call (c : AppCall) : M ViewState unit :=
  modify (fun s => mkViewState (registeruser_view s) (auth_view s)
                     (user_view s) (appcalls s ++ [c])).

(** Truth value of a configuration value in a condition. *)
Definition truthy (v : CfgVal) : bool :=
  match v with
  | VNone => false
  | VBool b => b
  | VInt z => negb (z =? 0)
  | VStr s => negb (String.eqb s "")
  | VDict d => match d with [] => false | _ => true end
  | VProviders ps => match ps with [] => false | _ => true end
  end.

(** [app.config.get(k, default)] *)
Definition config_get (cfg : Config) (k : string) (dflt : CfgVal) : CfgVal :=
  default dflt (cfg !! k).

(** The chain [if self.auth_type == AUTH_DB: ... elif ... else: ...] of
    [register_views] that chooses the user view class and the class of the
    authentication view. *)
Definition backend_views {S} (cfg : Config) : M S (ViewClass * ViewClass) :=
  t ← lift (auth_type cfg);
  if eq_int t AUTH_DB then ret (userdbmodelview, authdbview)
  else
    t ← lift (auth_type cfg);
    if eq_int t AUTH_LDAP then ret (userldapmodelview, authldapview)
    else
      t ← lift (auth_type cfg);
      if eq_int t AUTH_OAUTH then ret (useroauthmodelview, authoauthview)
      else
        t ← lift (auth_type cfg);
        if eq_int t AUTH_REMOTE_USER
        then ret (userremoteusermodelview, authremoteuserview)
        else ret (useroidmodelview, authoidview).

(** The body of [if self.auth_user_registration: ...] at the head of
    [register_views]. *)
Definition registration_view (cfg : Config) : M ViewState unit :=
  (t ← lift (auth_type cfg);
   if eq_int t AUTH_DB
   then modify (set_registeruser_view (Instance registeruserdbview))
   else
     t ← lift (auth_type cfg);
     if eq_int t AUTH_OID
     then modify (set_registeruser_view (Instance registeruseroidview))
     else
       t ← lift (auth_type cfg);
       if eq_int t AUTH_OAUTH
       then modify (set_registeruser_view (Instance registeruseroauthview))
       else mret tt);;
  v ← gets registeruser_view;
  match v with
  | Some v => call (add_view_no_menu v)
  | None => mret tt
  end.

(** [register_views].  [stats] tells whether [userstatschartview] was
    given (is not [None]). *)
Definition register_views (cfg : Config) (stats : bool) : M ViewState unit :=
  if negb (truthy (config_get cfg "FAB_ADD_SECURITY_VIEWS" (VBool true)))
  then mret tt
  else
    registration ← lift (auth_user_registration cfg);
    (if truthy registration then registration_view cfg else mret tt);;
    call (add_view_no_menu (Instance resetpasswordview));;
    call (add_view_no_menu (Instance resetmypasswordview));;
    call (add_view_no_menu (Instance userinfoeditview));;
    backend ← backend_views cfg;
    modify (set_user_view (UserViewClass backend.1));;
    modify (set_auth_view (Instance backend.2));;
    call (add_view_no_menu (Instance backend.2));;
    (* this needs to be done after the view is added, otherwise the
       blueprint is not initialized *)
    limited ← lift (is_auth_limited cfg);
    (if truthy limited then
       rate ← lift (auth_rate_limit cfg);
       call (limit rate ["POST"] (Instance backend.2))
     else mret tt);;
    call (add_view backend.1 "List Users" "fa-user" "List Users" "Security"
            (Some "fa-cogs") (Some "Security"));;
    modify (set_user_view (UserViewInstance backend.1));;
    call (add_view rolemodelview "List Roles" "fa-group" "List Roles"
            "Security" (Some "fa-cogs") None);;
    call (set_related_views rolemodelview [backend.1]);;
    (if stats then
       call (add_view userstatschartview "User's Statistics" "fa-bar-chart-o"
               "User's Statistics" "Security" None None)
     else mret tt);;
    registration ← lift (auth_user_registration cfg);
    (if truthy registration then
       call (add_view registerusermodelview "User's Statistics" "fa-user-plus"
               "User Registrations" "Security" None None)
     else mret tt);;
    call (add_separator "Security");;
    (if truthy (config_get cfg "FAB_ADD_SECURITY_PERMISSION_VIEW" (VBool true))
     then call (add_view actionmodelview "Actions" "fa-lock" "Actions"
                  "Security" None None)
     else mret tt);;
    (if truthy (config_get cfg "FAB_ADD_SECURITY_VIEW_MENU_VIEW" (VBool true))
     then call (add_view resourcemodelview "Resources" "fa-list-alt"
                  "Resources" "Security" None None)
     else mret tt);;
    (if truthy (config_get cfg "FAB_ADD_SECURITY_PERMISSION_VIEWS_VIEW"
                  (VBool true))
     then call (add_view permissionmodelview "Permission Pairs" "fa-link"
                  "Permissions" "Security" None None)
     else mret tt).

(** The model classes ([role_model = Role], ..., and [user_model]); a view
    class's [datamodel] is the [SQLAInterface] of one of them. *)
Inductive ModelClass :=
  | user_model | registeruser_model | role_model | action_model
  | resource_model | permission_model.

(** The [datamodel] attribute of every view class. *)
Abbreviation DataModels := (ViewClass -> option ModelClass).

(** [cls.datamodel = SQLAInterface(model)] *)
Definition set_datamodel (c : ViewClass) (model : ModelClass)
    : M DataModels unit :=
  modify (fun dm c' => if bool_decide (c' = c) then Some model else dm c').

Definition _init_data_model (cfg : Config) (stats : bool) : M DataModels unit :=
  let user_data_model := user_model in
  (t ← lift (auth_type cfg);
   if eq_int t AUTH_DB then set_datamodel userdbmodelview user_data_model
   else
     t ← lift (auth_type cfg);
     if eq_int t AUTH_LDAP then set_datamodel userldapmodelview user_data_model
     else
       t ← lift (auth_type cfg);
       if eq_int t AUTH_OID then set_datamodel useroidmodelview user_data_model
       else
         t ← lift (auth_type cfg);
         if eq_int t AUTH_OAUTH
         then set_datamodel useroauthmodelview user_data_model
         else
           t ← lift (auth_type cfg);
           if eq_int t AUTH_REMOTE_USER
           then set_datamodel userremoteusermodelview user_data_model
           else mret tt);;
  (if stats then set_datamodel userstatschartview user_data_model
   else mret tt);;
  registration ← lift (auth_user_registration cfg);
  (if truthy registration
   then set_datamodel registerusermodelview registeruser_model
   else mret tt);;
  set_datamodel rolemodelview role_model;;
  set_datamodel actionmodelview action_model;;
  set_datamodel resourcemodelview resource_model;;
  set_datamodel permissionmodelview permission_model.

(** ** Predicates used in the statements *)

(** An ASCII decimal digit. *)
Definition is_digit (c : ascii) : bool :=
  let n := nat_of_ascii c in (48 <=? n)%nat && (n <=? 57)%nat.

(** A character that [PyLong_FromString] accepts nowhere: no digit, sign,
    underscore or white space. *)
Definition refused (c : ascii) : bool :=
  negb (Py_ISSPACE c || is_digit c || Ascii.eqb c "_" || Ascii.eqb c "+"
        || Ascii.eqb c "-").


(** The code points that [int] takes as white space in a text: those of
    the C locale below 127, those of Unicode from there on. *)
Definition int_space (ch : N) : bool :=
  if (ch <? 127)%N then Py_ISSPACE (ascii_of_N ch) else Py_UNICODE_ISSPACE ch.


(** The row's payload loads, and its ["_user_id"] entry equals the user's
    id: the test of the loop body. *)
Definition owned_by (loads : string -> Result SessionDetails) (user : User)
    (r : SessionRecord) : bool :=
  match loads (want_bytes (data r)) with
  | Ok d => py_eq (dict_get d "_user_id") (PyInt (user_id user))
  | Raise _ => false
  end.

(** The row's payload loads. *)
Definition loadable (loads : string -> Result SessionDetails)
    (r : SessionRecord) : bool :=
  is_ok (loads (want_bytes (data r))).

(** Position of the first occurrence of a call in the log. *)
Fixpoint call_index (c : Call) (l : list Call) : option nat :=
  match l with
  | [] => None
  | c' :: l' => if bool_decide (c' = c) then Some O
                else S <$> call_index c l'
  end.

(** [a] is entered strictly before [b], both occurring in the log. *)
Definition called_before (a b : Call) (l : list Call) : bool :=
  match call_index a l, call_index b l with
  | Some i, Some j => (i <? j)%nat
  | _, _ => false
  end.

(** Revocation does not run its deletion pass: the store is not queryable
    or holds more sessions than the limit. *)
Definition revocation_skipped (w : World) : bool :=
  match session_interface w with
  | AirflowDatabaseSessionInterface =>
      Z.of_nat (length (sessions w)) >? MAX_NUM_DATABASE_USER_SESSIONS
  | SecureCookieSessionInterface => true
  end.

(** Revocation removes from the session table the rows of the user, and
    only those. *)
Definition deletes_exactly_owned (loads : string -> Result SessionDetails)
    (user : User) (w : World) : Prop :=
  sessions (reset_user_sessions loads user w).2 =
  filter (fun r => owned_by loads user r = false) (sessions w).

(** Revocation ends normally and leaves no row of the user in the table,
    whatever rows fail to load. *)
Definition scan_skips_unloadable (loads : string -> Result SessionDetails)
    (user : User) (w : World) : Prop :=
  (reset_user_sessions loads user w).1 = Ok tt /\
  forall r, r ∈ sessions (reset_user_sessions loads user w).2 ->
            owned_by loads user r = false.

(** The configured auth type is LDAP.  A missing [AUTH_TYPE] is filled with
    [AUTH_DB] by [_init_config]. *)
Definition configured_ldap (cfg : Config) : bool :=
  match cfg !! "AUTH_TYPE" with
  | Some t => eq_int t AUTH_LDAP
  | None => false
  end.

(** The defaults that [_init_config] fills in, as tables in the order of
    the [setdefault] calls: before the LDAP block (the registration role
    defaults to the public role's name), in the LDAP block, after it. *)
Definition base_defaults (role_public : CfgVal) : list (string * CfgVal) :=
  [("AUTH_ROLE_ADMIN", VStr "Admin");
   ("AUTH_ROLE_PUBLIC", VStr "Public");
   ("AUTH_TYPE", VInt AUTH_DB);
   ("AUTH_USER_REGISTRATION", VBool false);
   ("AUTH_USER_REGISTRATION_ROLE", role_public);
   ("AUTH_USER_REGISTRATION_ROLE_JMESPATH", VNone);
   ("AUTH_ROLES_MAPPING", VDict []);
   ("AUTH_ROLES_SYNC_AT_LOGIN", VBool false);
   ("AUTH_API_LOGIN_ALLOW_MULTIPLE_PROVIDERS", VBool false)].

Definition ldap_defaults : list (string * CfgVal) :=
  [("AUTH_LDAP_SEARCH", VStr "");
   ("AUTH_LDAP_SEARCH_FILTER", VStr "");
   ("AUTH_LDAP_APPEND_DOMAIN", VStr "");
   ("AUTH_LDAP_USERNAME_FORMAT", VStr "");
   ("AUTH_LDAP_BIND_USER", VStr "");
   ("AUTH_LDAP_BIND_PASSWORD", VStr "");
   ("AUTH_LDAP_USE_TLS", VBool false);
   ("AUTH_LDAP_ALLOW_SELF_SIGNED", VBool false);
   ("AUTH_LDAP_TLS_DEMAND", VBool false);
   ("AUTH_LDAP_TLS_CACERTDIR", VStr "");
   ("AUTH_LDAP_TLS_CACERTFILE", VStr "");
   ("AUTH_LDAP_TLS_CERTFILE", VStr "");
   ("AUTH_LDAP_TLS_KEYFILE", VStr "");
   ("AUTH_LDAP_UID_FIELD", VStr "uid");
   ("AUTH_LDAP_GROUP_FIELD", VStr "memberOf");
   ("AUTH_LDAP_FIRSTNAME_FIELD", VStr "givenName");
   ("AUTH_LDAP_LASTNAME_FIELD", VStr "sn");
   ("AUTH_LDAP_EMAIL_FIELD", VStr "mail")].

Definition rate_defaults : list (string * CfgVal) :=
  [("AUTH_RATE_LIMITED", VBool true);
   ("AUTH_RATE_LIMIT", VStr "5 per 40 second")].

Definition apply_defaults (l : list (string * CfgVal)) (cfg : Config) : Config :=
  foldl (fun c kv => with_default kv.1 kv.2 c) cfg l.

(** The first default a table gives for a key. *)
Fixpoint default_of (k : string) (l : list (string * CfgVal)) : option CfgVal :=
  match l with
  | [] => None
  | (k', v) :: l' => if bool_decide (k' = k) then Some v else default_of k l'
  end.

(** The allow-list registry after the providers, in order, have been
    registered on top of the registry [r]. *)
Definition register_allow_lists (ps : list Provider)
    (r : gmap string (list string)) : gmap string (list string) :=
  foldl (fun r p => match whitelist p with
                    | Some wl => <[name p := wl]> r
                    | None => r
                    end) r ps.

(** The remote applications after the providers, in order, have been
    registered on top of [r]: each with its token getter attached. *)
Definition register_remotes (ps : list Provider)
    (r : gmap string OAuthRemote) : gmap string OAuthRemote :=
  foldl (fun r p => <[name p := mkRemote (name p) (remote_app p) true]> r) r ps.

(** The class of the registration view that [register_views] instantiates
    for an auth type, if any, and the user view class and authentication
    view class it chooses: the outcomes of its two [if]/[elif] chains. *)
Definition registration_view_of (t : CfgVal) : option ViewClass :=
  if eq_int t AUTH_DB then Some registeruserdbview
  else if eq_int t AUTH_OID then Some registeruseroidview
  else if eq_int t AUTH_OAUTH then Some registeruseroauthview
  else None.

Definition backend_of (t : CfgVal) : ViewClass * ViewClass :=
  if eq_int t AUTH_DB then (userdbmodelview, authdbview)
  else if eq_int t AUTH_LDAP then (userldapmodelview, authldapview)
  else if eq_int t AUTH_OAUTH then (useroauthmodelview, authoauthview)
  else if eq_int t AUTH_REMOTE_USER
       then (userremoteusermodelview, authremoteuserview)
  else (useroidmodelview, authoidview).

(** The calls of a complete run of [register_views], given what it reads:
    the registration flag, the auth type, the rate limiting flag and rate,
    the registration view it ends up with, and the three menu flags. *)
Definition view_calls (registration : bool) (t : CfgVal) (limited : bool)
    (rate : CfgVal) (stats : bool) (rv : option View)
    (actions resources permissions : bool) : list AppCall :=
  (if registration
   then match rv with Some v => [add_view_no_menu v] | None => [] end
   else []) ++
  [add_view_no_menu (Instance resetpasswordview);
   add_view_no_menu (Instance resetmypasswordview);
   add_view_no_menu (Instance userinfoeditview);
   add_view_no_menu (Instance (backend_of t).2)] ++
  (if limited then [limit rate ["POST"] (Instance (backend_of t).2)] else []) ++
  [add_view (backend_of t).1 "List Users" "fa-user" "List Users" "Security"
     (Some "fa-cogs") (Some "Security");
   add_view rolemodelview "List Roles" "fa-group" "List Roles" "Security"
     (Some "fa-cogs") None;
   set_related_views rolemodelview [(backend_of t).1]] ++
  (if stats
   then [add_view userstatschartview "User's Statistics" "fa-bar-chart-o"
           "User's Statistics" "Security" None None]
   else []) ++
  (if registration
   then [add_view registerusermodelview "User's Statistics" "fa-user-plus"
           "User Registrations" "Security" None None]
   else []) ++
  [add_separator "Security"] ++
  (if actions
   then [add_view actionmodelview "Actions" "fa-lock" "Actions" "Security"
           None None]
   else []) ++
  (if resources
   then [add_view resourcemodelview "Resources" "fa-list-alt" "Resources"
           "Security" None None]
   else []) ++
  (if permissions
   then [add_view permissionmodelview "Permission Pairs" "fa-link"
           "Permissions" "Security" None None]
   else []).

(** The user view class to which [_init_data_model] gives the user data
    model, if any: the outcome of its [if]/[elif] chain, which has no
    [else]. *)
Definition datamodel_view_of (t : CfgVal) : option ViewClass :=
  if eq_int t AUTH_DB then Some userdbmodelview
  else if eq_int t AUTH_LDAP then Some userldapmodelview
  else if eq_int t AUTH_OID then Some useroidmodelview
  else if eq_int t AUTH_OAUTH then Some useroauthmodelview
  else if eq_int t AUTH_REMOTE_USER then Some userremoteusermodelview
  else None.

(** The call is a call of the limiter. *)
Definition is_limit (c : AppCall) : bool :=
  match c with limit _ _ _ => true | _ => false end.

(** ** Concrete scenarios *)

(** The Unicode database of CPython 3.11 (Unicode 14.0): outside ASCII the
    decimal digits come in runs of ten, from the digit zero of a script to
    its digit nine; these are the digits zero. *)
Definition decimal_zeros : list N :=
  [0x660; 0x6F0; 0x7C0; 0x966; 0x9E6; 0xA66; 0xAE6; 0xB66; 0xBE6;
   0xC66; 0xCE6; 0xD66; 0xDE6; 0xE50; 0xED0; 0xF20; 0x1040; 0x1090;
   0x17E0; 0x1810; 0x1946; 0x19D0; 0x1A80; 0x1A90; 0x1B50; 0x1BB0;
   0x1C40; 0x1C50; 0xA620; 0xA8D0; 0xA900; 0xA9D0; 0xA9F0; 0xAA50;
   0xABF0; 0xFF10; 0x104A0; 0x10D30; 0x11066; 0x110F0; 0x11136;
   0x111D0; 0x112F0; 0x11450; 0x114D0; 0x11650; 0x116C0; 0x11730;
   0x118E0; 0x11950; 0x11C50; 0x11D50; 0x11DA0; 0x16A60; 0x16AC0;
   0x16B50; 0x1D7CE; 0x1D7D8; 0x1D7E2; 0x1D7EC; 0x1D7F6; 0x1E140;
   0x1E2F0; 0x1E950; 0x1FBF0]%N.

Definition unicode_14_0 : UnicodeData :=
  {| decimal_digit ch :=
       match List.find (fun z => (z <=? ch) && (ch <? z + 10))%N decimal_zeros with
       | Some z => Some (ch - z)%N
       | None => None
       end |}.

(** A serializer for the scenarios below: the payload [uid:<n>] is the
    session dictionary [{"_user_id": n}], the payload [{}] is the empty
    dictionary, and any other payload fails to load. *)
Definition example_loads (payload : string) : Result SessionDetails :=
  if String.prefix "uid:" payload then
    match int_of_bytes
            (String.substring 4 (String.length payload - 4) payload) with
    | Some n => Ok {["_user_id" := PyInt n]}
    | None => Raise UnpicklingError
    end
  else if String.eqb payload "{}" then Ok ∅
  else Raise UnpicklingError.

Definition example_hash (pw : string) : string := "pbkdf2:sha256:" +:+ pw.

Definition alice : User := mkUser 7 "alice" "pbkdf2:sha256:old" true.
Definition bob : User := mkUser 9 "bob" "pbkdf2:sha256:bob" true.

Definition session_of (pk : Z) (owner : Z) : SessionRecord :=
  mkSession pk ("sid-" +:+ decimal_string pk) ("uid:" +:+ decimal_string owner)
    1700000000.
Definition corrupt_session (pk : Z) : SessionRecord :=
  mkSession pk ("sid-" +:+ decimal_string pk) "not-a-pickle" 1700000000.

Definition world_of (i : SessionInterface) (rows : list SessionRecord) : World :=
  mkWorld [alice; bob] i rows [] Unset [].

(** Three sessions of user 7 and two of user 9. *)
Definition five_sessions : list SessionRecord :=
  [session_of 1 7; session_of 2 9; session_of 3 7; session_of 4 9; session_of 5 7].

(** A corrupt payload in front of a session of user 7. *)
Definition corrupt_first : list SessionRecord :=
  [corrupt_session 1; session_of 2 7].

(** A corrupt payload between two sessions of user 7. *)
Definition corrupt_between : list SessionRecord :=
  [session_of 1 7; corrupt_session 2; session_of 3 7].

(** [n] sessions, all of user 9, with the keys [pk], [pk + 1], ... *)
Fixpoint sessions_from (pk : Z) (n : nat) : list SessionRecord :=
  match n with
  | O => []
  | S n' => session_of pk 9 :: sessions_from (pk + 1) n'
  end.

Definition many_sessions (n : Z) : list SessionRecord :=
  sessions_from 1 (Z.to_nat n).

(** An LDAP configuration with and without the server address. *)
Definition ldap_config : Config :=
  {["AUTH_TYPE" := VInt AUTH_LDAP;
    "AUTH_LDAP_SERVER" := VStr "ldap://ldap.example.com";
    "AUTH_LDAP_UID_FIELD" := VStr "sAMAccountName"]}.

Definition ldap_config_no_server : Config :=
  {["AUTH_TYPE" := VInt AUTH_LDAP]}.

(** Two OAuth providers, one of them with an allow-list. *)
Definition example_providers : list Provider :=
  [mkProvider "google" "google-settings" (Some ["a@x.com"]);
   mkProvider "github" "github-settings" None].

Definition oauth_config : Config :=
  {["AUTH_TYPE" := VInt AUTH_OAUTH;
    "OAUTH_PROVIDERS" := VProviders example_providers]}.

(** A manager before [_init_auth]. *)
Definition fresh_manager : Manager := mkManager false false ∅ false ∅.

(** A manager's views before [register_views], and a configuration after
    [_init_config] with self-registration on. *)
Definition fresh_views : ViewState := mkViewState None None None [].

Definition registration_config : Config :=
  (_init_config {["AUTH_USER_REGISTRATION" := VBool true]}).2.

(** A session of a visitor who is not logged in: the empty dictionary. *)
Definition anonymous_session (pk : Z) : SessionRecord :=
  mkSession pk ("sid-" +:+ decimal_string pk) "{}" 1700000000.

(** A configuration that renames the public role. *)
Definition viewer_config : Config := {["AUTH_ROLE_PUBLIC" := VStr "Viewer"]}.

(** A configuration with the auth type only. *)
Definition bare_config : Config := {["AUTH_TYPE" := VInt AUTH_DB]}.

(** A manager whose registry still holds an allow-list for "google", and
    a configuration that registers "google" again without allow-list. *)
Definition stale_manager : Manager :=
  mkManager false false ∅ false {["google" := ["a@x.com"]]}.

Definition google_again_config : Config :=
  {["AUTH_TYPE" := VInt AUTH_OAUTH;
    "OAUTH_PROVIDERS" :=
      VProviders [mkProvider "google" "google-settings" None]]}.

(** * Properties *)

(** ** [str] and [int] *)

Example int_of_bytes_42 : int_of_bytes "42" = Some 42.
Proof. reflexivity. Qed.
Example int_of_bytes_spaces : int_of_bytes "  -1_000 " = Some (-1000).
Proof. reflexivity. Qed.
Example int_of_bytes_bad : int_of_bytes "4__2" = None /\ int_of_bytes "_42" = None
  /\ int_of_bytes "42_" = None /\ int_of_bytes "" = None /\ int_of_bytes "-" = None
  /\ int_of_bytes "admin" = None /\ int_of_bytes "4 2" = None.
Proof. repeat split; reflexivity. Qed.
(** In bytes a no-break space is no white space, and the separator 0x1C
    is none either. *)
Example int_of_bytes_no_space :
  int_of_bytes (String (ascii_of_nat 160) "9") = None /\
  int_of_bytes (String (ascii_of_nat 28) "9") = None /\
  int_of_bytes (String (ascii_of_nat 9) "9") = Some 9.
Proof. repeat split; reflexivity. Qed.
Example py_str_ex :
  py_str 0 = text "0" /\ py_str (-12) = text "-12" /\ py_str 42 = text "42".
Proof. repeat split; reflexivity. Qed.

(** Texts with code points from outside ASCII: the Arabic-Indic digit nine,
    a no-break space, a full-width digit, a mathematical double-struck
    digit, digits of two scripts; and texts that [int] refuses: the
    separator 0x1C (white space for [str.strip], not for [int]), on its own
    and beside a no-break space, the character 0x7F, the minus sign U+2212
    and a NUL after the digit. *)
Example int_of_str_unicode :
  int_of_str (unicode := unicode_14_0) [0x669]%N = Some 9 /\
  int_of_str (unicode := unicode_14_0) [0xA0; 57]%N = Some 9 /\
  int_of_str (unicode := unicode_14_0) [0xFF19]%N = Some 9 /\
  int_of_str (unicode := unicode_14_0) [0x1D7D9]%N = Some 1 /\
  int_of_str (unicode := unicode_14_0) [0x33; 0x664]%N = Some 34 /\
  int_of_str (unicode := unicode_14_0) [0x1C; 57]%N = None /\
  int_of_str (unicode := unicode_14_0) [0x1C; 57; 0xA0]%N = None /\
  int_of_str (unicode := unicode_14_0) [57; 0x7F]%N = None /\
  int_of_str (unicode := unicode_14_0) [0x2212; 57]%N = None /\
  int_of_str (unicode := unicode_14_0) [57; 0]%N = None.
Proof. repeat split; reflexivity. Qed.

(** 9.5 and -9.5 are truncated toward zero; 7.0 equals 7, 7.5 does not. *)
Example int_of_float_ex :
  int_of_float (Finite 19 (-1)) = Ok 9 /\
  int_of_float (Finite (-19) (-1)) = Ok (-9) /\
  int_of_float (Finite 3 2) = Ok 12 /\
  py_eq (PyFloat (Finite 14 (-1))) (PyInt 7) = true /\
  py_eq (PyFloat (Finite 15 (-1))) (PyInt 7) = false /\
  py_eq (PyBool true) (PyInt 1) = true /\
  py_eq (PyStr (text "7")) (PyInt 7) = false.
Proof. repeat split; reflexivity. Qed.

Lemma digits_of_uint (d : uint) :
  Forall (fun c => is_digit c = true)
         (list_ascii_of_string (NilEmpty.string_of_uint d)).
Proof. induction d; simpl; constructor; auto. Qed.

Lemma is_digit_not_space (c : ascii) : is_digit c = true -> Py_ISSPACE c = false.
Proof.
  unfold is_digit, Py_ISSPACE. cbv zeta. generalize (nat_of_ascii c). intros n H.
  apply andb_true_iff in H as [H1 H2].
  apply Nat.leb_le in H1. apply Nat.leb_le in H2.
  apply orb_false_iff. split; [apply andb_false_iff|].
  - right. apply Nat.leb_gt. lia.
  - apply Nat.eqb_neq. lia.
Qed.

Lemma rstrip_id (l : list ascii) :
  Forall (fun c => Py_ISSPACE c = false) l -> rstrip l = l.
Proof.
  induction 1 as [|c l Hc _ IH]; simpl; [reflexivity|].
  rewrite IH, Hc. destruct l; reflexivity.
Qed.

Lemma parse_digits_of_uint (d : uint) :
  parse_digits true (list_ascii_of_string (NilEmpty.string_of_uint d)) = Some d.
Proof. induction d; simpl; [reflexivity|rewrite IHd; reflexivity ..]. Qed.

Lemma parse_digits_nilzero (d : uint) :
  exists d', parse_digits false
               (list_ascii_of_string (NilZero.string_of_uint d)) = Some d'
             /\ Z.of_uint d' = Z.of_uint d.
Proof.
  destruct d; simpl; try rewrite parse_digits_of_uint; eauto.
Qed.

Lemma nilzero_chars (d : uint) :
  exists c l, list_ascii_of_string (NilZero.string_of_uint d) = c :: l
              /\ is_digit c = true /\ Forall (fun c => is_digit c = true) l.
Proof.
  destruct d; simpl; eexists _, _; (split; [reflexivity|]);
    (split; [reflexivity|]); try apply digits_of_uint; constructor.
Qed.

Lemma long_from_string_of_int (d : int) :
  long_from_string (list_ascii_of_string (NilZero.string_of_int d)) =
  Some (Z.of_int d).
Proof.
  assert (Hsp : forall l, Forall (fun c => is_digit c = true) l ->
                          Forall (fun c => Py_ISSPACE c = false) l).
  { intros l H. eapply Forall_impl; [exact H|]. exact is_digit_not_space. }
  unfold long_from_string. destruct d as [d|d]; unfold NilZero.string_of_int.
  - destruct (nilzero_chars d) as (c & l & E & Hc & Hl).
    destruct (parse_digits_nilzero d) as (d' & Hp & Hd').
    rewrite E in *. rewrite rstrip_id by (constructor; auto using is_digit_not_space).
    simpl lstrip. rewrite (is_digit_not_space c Hc).
    assert (Hm : c <> "-"%char) by (intros ->; discriminate Hc).
    assert (Hq : c <> "+"%char) by (intros ->; discriminate Hc).
    destruct c as [[] [] [] [] [] [] [] []]; try congruence;
      rewrite Hp; simpl; unfold Z.of_int; congruence.
  - simpl list_ascii_of_string.
    destruct (nilzero_chars d) as (c & l & E & Hc & Hl).
    destruct (parse_digits_nilzero d) as (d' & Hp & Hd').
    rewrite rstrip_id.
    + simpl. rewrite Hp. simpl. unfold Z.of_int. congruence.
    + constructor; [reflexivity|]. rewrite E. constructor; auto using is_digit_not_space.
Qed.

Lemma int_of_bytes_decimal (n : Z) : int_of_bytes (decimal_string n) = Some n.
Proof.
  unfold int_of_bytes, decimal_string. rewrite long_from_string_of_int.
  f_equal. apply DecimalZ.of_to.
Qed.

Lemma is_digit_ascii (c : ascii) :
  is_digit c = true -> (N_of_ascii c <? 128)%N = true.
Proof. destruct c as [[] [] [] [] [] [] [] []]; intros H; try discriminate H; reflexivity. Qed.

(** The decimal text of an integer is an ASCII text. *)
Lemma decimal_string_ascii (n : Z) :
  Forall (fun c => (N_of_ascii c <? 128)%N = true)
         (list_ascii_of_string (decimal_string n)).
Proof.
  assert (Hd : forall l, Forall (fun c => is_digit c = true) l ->
                         Forall (fun c => (N_of_ascii c <? 128)%N = true) l).
  { intros l H. eapply Forall_impl; [exact H|]. exact is_digit_ascii. }
  unfold decimal_string. destruct (Z.to_int n) as [d|d];
    unfold NilZero.string_of_int;
    destruct (nilzero_chars d) as (c & l & E & Hc & Hl).
  - rewrite E. apply Hd. constructor; assumption.
  - simpl list_ascii_of_string. constructor; [reflexivity|].
    rewrite E. apply Hd. constructor; assumption.
Qed.

(** The three cases of the parser, by the first character after the
    leading white space. *)
Lemma long_from_string_eq (l : list ascii) :
  long_from_string l =
  match lstrip (rstrip l) with
  | [] => None
  | x :: ds =>
      if Ascii.eqb x "-"
      then d ← parse_digits false ds; Some (Z.of_int (Neg d))
      else if Ascii.eqb x "+"
      then d ← parse_digits false ds; Some (Z.of_int (Pos d))
      else d ← parse_digits false (x :: ds); Some (Z.of_int (Pos d))
  end.
Proof.
  unfold long_from_string. destruct (lstrip (rstrip l)) as [|x ds]; [reflexivity|].
  destruct x as [[] [] [] [] [] [] [] []]; reflexivity.
Qed.

Lemma uint_of_char_refused (c : ascii) (d : option uint) :
  is_digit c = false -> uint_of_char c d = None.
Proof.
  destruct c as [[] [] [] [] [] [] [] []]; intros H; try discriminate H;
    destruct d; reflexivity.
Qed.

Lemma refused_spec (c : ascii) :
  refused c = true ->
  Py_ISSPACE c = false /\ is_digit c = false /\ Ascii.eqb c "_" = false /\
  Ascii.eqb c "+" = false /\ Ascii.eqb c "-" = false.
Proof.
  unfold refused. intros H. apply negb_true_iff in H.
  do 4 (apply orb_false_iff in H as [H ?]). repeat split; assumption.
Qed.

Lemma parse_digits_refused (c : ascii) (l : list ascii) (b : bool) :
  In c l -> refused c = true -> parse_digits b l = None.
Proof.
  intros Hin Hc. destruct (refused_spec c Hc) as (_ & Hd & Hu & _).
  revert b. induction l as [|x l IH]; intros b; [destruct Hin|].
  cbn [parse_digits]. destruct Hin as [->|Hin].
  - rewrite Hu. apply uint_of_char_refused. exact Hd.
  - destruct (Ascii.eqb x "_").
    + destruct b; [apply IH; exact Hin|reflexivity].
    + rewrite (IH Hin). destruct x as [[] [] [] [] [] [] [] []]; reflexivity.
Qed.

Lemma In_rstrip (c : ascii) (l : list ascii) :
  In c l -> Py_ISSPACE c = false -> In c (rstrip l).
Proof.
  intros Hin Hc. induction l as [|x l IH]; [destruct Hin|].
  cbn [rstrip]. destruct Hin as [->|Hin].
  - destruct (rstrip l); [rewrite Hc|]; left; reflexivity.
  - specialize (IH Hin). destruct (rstrip l); [destruct IH|]. right. exact IH.
Qed.

Lemma In_lstrip (c : ascii) (l : list ascii) :
  In c l -> Py_ISSPACE c = false -> In c (lstrip l).
Proof.
  intros Hin Hc. induction l as [|x l IH]; [destruct Hin|].
  cbn [lstrip]. destruct (Py_ISSPACE x) eqn:Hx; [|exact Hin].
  destruct Hin as [->|Hin]; [congruence|]. apply IH. exact Hin.
Qed.

(** A text with a refused character is no number. *)
Lemma long_from_string_refused (c : ascii) (l : list ascii) :
  In c l -> refused c = true -> long_from_string l = None.
Proof.
  intros Hin Hc. destruct (refused_spec c Hc) as (Hs & _ & _ & Hp & Hm).
  pose proof (In_lstrip c _ (In_rstrip c l Hin Hs) Hs) as Hl.
  rewrite long_from_string_eq.
  destruct (lstrip (rstrip l)) as [|x ds]; [reflexivity|].
  destruct (Ascii.eqb x "-") eqn:Ex.
  - destruct Hl as [->|Hl]; [congruence|].
    rewrite (parse_digits_refused c ds false Hl Hc). reflexivity.
  - destruct (Ascii.eqb x "+") eqn:Ey.
    + destruct Hl as [->|Hl]; [congruence|].
      rewrite (parse_digits_refused c ds false Hl Hc). reflexivity.
    + rewrite (parse_digits_refused c (x :: ds) false Hl Hc). reflexivity.
Qed.

Section Conversions.

Context {unicode : UnicodeData}.



(** An ASCII text goes to the parser as it is. *)
Lemma transform_ascii (l : list ascii) :
  Forall (fun c => (N_of_ascii c <? 128)%N = true) l ->
  transform_decimal_and_space_to_ascii (map N_of_ascii l) = l.
Proof.
  intros H. unfold transform_decimal_and_space_to_ascii.
  assert (Hall : forallb (fun ch => (ch <? 128)%N) (map N_of_ascii l) = true).
  { induction H as [|c l Hc _ IH]; [reflexivity|].
    cbn [map forallb]. rewrite Hc, IH. reflexivity. }
  rewrite Hall. clear. induction l as [|c l IH]; [reflexivity|].
  cbn [map]. rewrite ascii_N_embedding, IH. reflexivity.
Qed.

Lemma int_of_str_ascii (s : string) :
  Forall (fun c => (N_of_ascii c <? 128)%N = true) (list_ascii_of_string s) ->
  int_of_str (text s) = int_of_bytes s.
Proof.
  intros H. unfold int_of_str, int_of_bytes, text.
  rewrite transform_ascii by exact H. reflexivity.
Qed.

Lemma int_of_py_str (n : Z) : int_of_str (py_str n) = Some n.
Proof.
  unfold py_str. rewrite int_of_str_ascii by apply decimal_string_ascii.
  apply int_of_bytes_decimal.
Qed.

End Conversions.

(** ** Session revocation *)

Lemma filter_ext_elem {A} (P Q : A -> Prop) `{!forall x, Decision (P x)}
    `{!forall x, Decision (Q x)} (l : list A) :
  (forall x, x ∈ l -> (P x <-> Q x)) -> filter P l = filter Q l.
Proof.
  induction l as [|a l IH]; intros Hext; [reflexivity|].
  rewrite !filter_cons.
  rewrite IH by (intros x Hx; apply Hext; right; exact Hx).
  destruct (decide (P a)) as [HP|HP], (decide (Q a)) as [HQ|HQ];
    try reflexivity; exfalso; specialize (Hext a ltac:(left)); tauto.
Qed.

Section Revocation.

Context (loads : string -> Result SessionDetails).

(** One round of the loop on a row whose payload loads. *)
Lemma for_each_session_cons_ok user s rows d w :
  loads (want_bytes (data s)) = Ok d ->
  for_each_session loads user (s :: rows) w =
  for_each_session loads user rows
    (if owned_by loads user s
     then set_sessions (filter (fun r => r <> s)) w else w).
Proof.
  intros E. unfold owned_by. rewrite E.
  cbn [for_each_session]. unfold mbind, M_bind, bind, lift. rewrite E.
  destruct (py_eq _ _); reflexivity.
Qed.

(** The loop stops at a row whose payload does not load. *)
Lemma for_each_session_cons_raise user s rows e w :
  loads (want_bytes (data s)) = Raise e ->
  for_each_session loads user (s :: rows) w = (Raise e, w).
Proof.
  intros E. cbn [for_each_session]. unfold mbind, M_bind, bind, lift.
  rewrite E. reflexivity.
Qed.

(** The loop over a prefix of rows that all load: a row leaves the table
    exactly when it is in the prefix and belongs to the user; the loop
    then goes on with the remaining rows. *)
Lemma for_each_session_app user pre rest w :
  Forall (fun r => loadable loads r = true) pre ->
  for_each_session loads user (pre ++ rest) w =
  for_each_session loads user rest
    (set_sessions
       (filter (fun r => ~ (r ∈ pre /\ owned_by loads user r = true))) w).
Proof.
  intros H. revert w. induction H as [|s pre Hs _ IH]; intros w.
  - cbn [app]. f_equal. destruct w as [us i tbl fl g cs].
    unfold set_sessions; cbn. f_equal.
    symmetry. induction tbl as [|a l IHl]; [reflexivity|].
    rewrite filter_cons_True, IHl; [reflexivity|].
    intros [Hin _]. inversion Hin.
  - unfold loadable in Hs.
    destruct (loads (want_bytes (data s))) as [d|e] eqn:E; [|discriminate].
    rewrite <- app_comm_cons.
    rewrite (for_each_session_cons_ok _ _ _ d) by exact E.
    rewrite IH. f_equal.
    destruct (owned_by loads user s) eqn:Ho; destruct w as [us i tbl fl g cs];
      unfold set_sessions; cbn; f_equal.
    + rewrite list_filter_filter. apply list_filter_iff. intros r.
      rewrite elem_of_cons. split.
      * intros [H1 H2] [[->|Hin] Hr]; [congruence|tauto].
      * intros H1. split; [tauto|]. intros ->. apply H1. tauto.
    + apply list_filter_iff. intros r. rewrite elem_of_cons. split.
      * intros H1 [[->|Hin] Hr]; [congruence|tauto].
      * tauto.
Qed.

Lemma for_each_session_ok user rows w :
  Forall (fun r => loadable loads r = true) rows ->
  for_each_session loads user rows w =
  (Ok tt, set_sessions
            (filter (fun r => ~ (r ∈ rows /\ owned_by loads user r = true))) w).
Proof.
  intros H. rewrite <- (app_nil_r rows) at 1.
  rewrite for_each_session_app by exact H. reflexivity.
Qed.

Lemma for_each_session_raise user pre bad post e w :
  Forall (fun r => loadable loads r = true) pre ->
  loads (want_bytes (data bad)) = Raise e ->
  for_each_session loads user (pre ++ bad :: post) w =
  (Raise e, set_sessions
              (filter (fun r => ~ (r ∈ pre /\ owned_by loads user r = true))) w).
Proof.
  intros H E. rewrite for_each_session_app by exact H.
  apply for_each_session_cons_raise. exact E.
Qed.

(** The loop writes the session table only. *)
Lemma for_each_session_frame user rows w :
  exists r tbl, for_each_session loads user rows w =
                (r, set_sessions (fun _ => tbl) w).
Proof.
  revert w. induction rows as [|s rows IH]; intros w.
  - exists (Ok tt), (sessions w). destruct w; reflexivity.
  - destruct (loads (want_bytes (data s))) as [d|e] eqn:E.
    + rewrite (for_each_session_cons_ok _ _ _ d) by exact E.
      destruct (owned_by loads user s).
      * destruct (IH (set_sessions (filter (fun r => r <> s)) w)) as (r & tbl & ->).
        exists r, tbl. destruct w; reflexivity.
      * apply IH.
    + rewrite (for_each_session_cons_raise _ _ _ e) by exact E.
      exists (Raise e), (sessions w). destruct w; reflexivity.
Qed.

(** The three branches of [reset_user_sessions]. *)
Lemma reset_user_sessions_cookie user w :
  session_interface w = SecureCookieSessionInterface ->
  reset_user_sessions loads user w =
  (Ok tt, add_flash (mkFlash (SecureCookieBackend (username user)) "warning")
            (log_call (CallResetUserSessions (user_id user)) w)).
Proof.
  intros E. unfold reset_user_sessions, mbind, M_bind, bind, modify, gets.
  cbn. rewrite E. reflexivity.
Qed.

Lemma reset_user_sessions_unhealthy user w :
  session_interface w = AirflowDatabaseSessionInterface ->
  Z.of_nat (length (sessions w)) > MAX_NUM_DATABASE_USER_SESSIONS ->
  reset_user_sessions loads user w =
  (Ok tt, add_flash (mkFlash (SessionsNotDeleted (username user)
                                (Z.of_nat (length (sessions w)))) "warning")
            (log_call (CallResetUserSessions (user_id user)) w)).
Proof.
  intros E Hn. apply Z.gtb_gt in Hn.
  unfold reset_user_sessions, mbind, M_bind, bind, modify, gets.
  cbn. rewrite E.
  change (sessions (log_call (CallResetUserSessions (user_id user)) w))
    with (sessions w).
  rewrite Hn. reflexivity.
Qed.

Lemma reset_user_sessions_scan user w :
  session_interface w = AirflowDatabaseSessionInterface ->
  Z.of_nat (length (sessions w)) <= MAX_NUM_DATABASE_USER_SESSIONS ->
  reset_user_sessions loads user w =
  for_each_session loads user (sessions w)
    (log_call (CallResetUserSessions (user_id user)) w).
Proof.
  intros E Hn.
  assert (Hb : (Z.of_nat (length (sessions w))
                >? MAX_NUM_DATABASE_USER_SESSIONS) = false).
  { rewrite Z.gtb_ltb. apply Z.ltb_ge. exact Hn. }
  unfold reset_user_sessions, mbind, M_bind, bind, modify, gets.
  cbn. rewrite E.
  change (sessions (log_call (CallResetUserSessions (user_id user)) w))
    with (sessions w).
  rewrite Hb. reflexivity.
Qed.

(** C2.  With the database session interface: when the table holds
    strictly more rows than [MAX_NUM_DATABASE_USER_SESSIONS] (50,000),
    [reset_user_sessions] returns normally, deletes no row and flashes one
    warning; when it holds at most that many, it flashes nothing and runs
    the deletion pass: the rows are visited in order up to the first row
    whose payload does not load, the rows of the user among the visited
    ones leave the table, and the call returns normally exactly when
    every row was visited. *)
Theorem reset_user_sessions_threshold user w :
  session_interface w = AirflowDatabaseSessionInterface ->
  (Z.of_nat (length (sessions w)) > 50000 ->
     (reset_user_sessions loads user w).1 = Ok tt /\
     sessions (reset_user_sessions loads user w).2 = sessions w /\
     flashes (reset_user_sessions loads user w).2 =
       (flashes w ++ [mkFlash (SessionsNotDeleted (username user)
                                 (Z.of_nat (length (sessions w)))) "warning"])%list)
  /\
  (Z.of_nat (length (sessions w)) <= 50000 ->
     flashes (reset_user_sessions loads user w).2 = flashes w /\
     forall pre rest : list SessionRecord,
       sessions w = pre ++ rest ->
       Forall (fun r => loadable loads r = true) pre ->
       (forall bad, head rest = Some bad -> loadable loads bad = false) ->
       sessions (reset_user_sessions loads user w).2 =
         filter (fun r => ~ (r ∈ pre /\ owned_by loads user r = true))
                (sessions w) /\
       ((reset_user_sessions loads user w).1 = Ok tt <-> rest = [])).
Proof.
  intros E. split; intros Hn.
  - rewrite reset_user_sessions_unhealthy by assumption. auto.
  - rewrite reset_user_sessions_scan by assumption. split.
    + destruct (for_each_session_frame user (sessions w)
                  (log_call (CallResetUserSessions (user_id user)) w))
        as (r & tbl & ->).
      reflexivity.
    + intros pre rest Hs Hpre Hbad. destruct rest as [|bad post].
      * rewrite app_nil_r in Hs. subst pre.
        rewrite for_each_session_ok by exact Hpre.
        split; [reflexivity|]. split; reflexivity.
      * specialize (Hbad bad eq_refl). unfold loadable in Hbad.
        destruct (loads (want_bytes (data bad))) as [d|e] eqn:Eb;
          [discriminate Hbad|].
        pose proof (for_each_session_raise user pre bad post e
                      (log_call (CallResetUserSessions (user_id user)) w)
                      Hpre Eb) as Hr.
        rewrite <- Hs in Hr. rewrite Hr.
        split; [reflexivity|]. split; discriminate.
Qed.

(** C3, amended.  With the database session interface, at most 50,000
    rows, and every row's payload loading: [reset_user_sessions] ends
    normally and the table afterwards is the table before without the
    rows whose payload's ["_user_id"] equals the user's id; the other
    rows stay, unchanged and in their order. *)
Theorem reset_user_sessions_exact user w :
  session_interface w = AirflowDatabaseSessionInterface ->
  Z.of_nat (length (sessions w)) <= MAX_NUM_DATABASE_USER_SESSIONS ->
  Forall (fun r => loadable loads r = true) (sessions w) ->
  reset_user_sessions loads user w =
  (Ok tt, set_sessions (filter (fun r => owned_by loads user r = false))
            (log_call (CallResetUserSessions (user_id user)) w)).
Proof.
  intros E Hn Hl. rewrite reset_user_sessions_scan by assumption.
  rewrite for_each_session_ok by exact Hl. f_equal.
  destruct w as [us i tbl fl g cs]. unfold set_sessions, log_call; cbn.
  f_equal. apply filter_ext_elem. intros r Hr.
  destruct (owned_by loads user r); split.
  + intros H. exfalso. apply H. auto.
  + discriminate.
  + reflexivity.
  + intros _ [_ H]. discriminate H.
Qed.

(** C4, amended.  With the database session interface and at most 50,000
    rows: when a row's payload fails to load and the rows before it all
    load, [reset_user_sessions] raises the serializer's exception at that
    row.  The user's rows before it have left the table; that row and the
    rows after it are not visited and stay. *)
Theorem reset_user_sessions_unloadable user w pre bad post e :
  session_interface w = AirflowDatabaseSessionInterface ->
  Z.of_nat (length (sessions w)) <= MAX_NUM_DATABASE_USER_SESSIONS ->
  sessions w = pre ++ bad :: post ->
  Forall (fun r => loadable loads r = true) pre ->
  loads (want_bytes (data bad)) = Raise e ->
  reset_user_sessions loads user w =
  (Raise e,
   set_sessions (filter (fun r => ~ (r ∈ pre /\ owned_by loads user r = true)))
     (log_call (CallResetUserSessions (user_id user)) w)).
Proof.
  intros E Hn Hs Hl Hb. rewrite reset_user_sessions_scan by assumption.
  rewrite Hs. apply for_each_session_raise; assumption.
Qed.

(** [reset_user_sessions] writes the session table, the flash queue and
    the call log only; the user table is not touched. *)
Lemma reset_user_sessions_frame user w :
  exists r tbl fl,
    reset_user_sessions loads user w =
    (r, mkWorld (users w) (session_interface w) tbl fl (g_user w)
          (calls w ++ [CallResetUserSessions (user_id user)])).
Proof.
  destruct (session_interface w) eqn:E.
  - destruct (Z.of_nat (length (sessions w))
              >? MAX_NUM_DATABASE_USER_SESSIONS) eqn:Hn.
    + apply Z.gtb_gt in Hn.
      rewrite reset_user_sessions_unhealthy by assumption.
      eexists _, _, _. rewrite <- E. reflexivity.
    + rewrite Z.gtb_ltb in Hn. apply Z.ltb_ge in Hn.
      rewrite reset_user_sessions_scan by assumption.
      destruct (for_each_session_frame user (sessions w)
                  (log_call (CallResetUserSessions (user_id user)) w))
        as (r & tbl & ->).
      eexists _, _, _. rewrite <- E. reflexivity.
  - rewrite reset_user_sessions_cookie by assumption.
    eexists _, _, _. rewrite <- E. reflexivity.
Qed.

(** When the deletion pass is skipped, the call ends normally with one
    warning flashed and nothing else changed. *)
Lemma reset_user_sessions_skipped user w :
  revocation_skipped w = true ->
  exists msg,
    reset_user_sessions loads user w =
    (Ok tt, add_flash (mkFlash msg "warning")
              (log_call (CallResetUserSessions (user_id user)) w)) /\
    (session_interface w = SecureCookieSessionInterface ->
     msg = SecureCookieBackend (username user)).
Proof.
  unfold revocation_skipped. intros H.
  destruct (session_interface w) eqn:E.
  - apply Z.gtb_gt in H. eexists. split; [|discriminate].
    apply reset_user_sessions_unhealthy; assumption.
  - eexists. split; [|reflexivity].
    apply reset_user_sessions_cookie; assumption.
Qed.

End Revocation.

(** ** Password reset *)

Lemma find_user_id pk us u : find_user pk us = Some u -> user_id u = pk.
Proof.
  unfold find_user. intros H. apply find_some in H as [_ H].
  apply Z.eqb_eq. exact H.
Qed.

Lemma find_user_store pk us u u' :
  find_user pk us = Some u -> user_id u' = pk ->
  find_user pk (store_user u' us) = Some u'.
Proof.
  intros Hf <-. unfold store_user. rewrite Hf.
  unfold find_user in *.
  assert (Hrefl : (user_id u' =? user_id u') = true)
    by (apply Z.eqb_eq; reflexivity).
  revert Hf. induction us as [|a l IH]; cbn [find map]; [discriminate|].
  destruct (user_id a =? user_id u') eqn:Ha; cbv beta iota.
  - rewrite Hrefl. reflexivity.
  - rewrite Ha. exact IH.
Qed.

Section PasswordReset.

Context (generate_password_hash : string -> string).
Context (loads : string -> Result SessionDetails).

(** [reset_password] for a stored user: revocation first, on the loaded
    record carrying the new hash, then [update_user]. *)
Lemma reset_password_found userid pw w u :
  find_user userid (users w) = Some u ->
  reset_password generate_password_hash loads userid pw w =
  match reset_user_sessions loads (set_password (generate_password_hash pw) u)
          (log_call (CallGetUserById userid) w) with
  | (Ok _, w1) => update_user (set_password (generate_password_hash pw) u) w1
  | (Raise e, w1) => (Raise e, w1)
  end.
Proof.
  intros Hf. unfold reset_password, get_user_by_id.
  unfold mbind, M_bind, bind, modify, gets.
  change (users (log_call (CallGetUserById userid) w)) with (users w).
  rewrite Hf. reflexivity.
Qed.

(** C1, amended.  For a stored user, [reset_password] enters
    [reset_user_sessions] strictly before [update_user]: revocation runs
    while the user table still holds the old record, and [update_user]
    stores the record with the new hash only after revocation has
    returned normally.  If revocation raises, [update_user] is not called
    and the user table is left as it was. *)
Theorem reset_password_order userid pw w u :
  find_user userid (users w) = Some u ->
  let user := set_password (generate_password_hash pw) u in
  let w0 := log_call (CallGetUserById userid) w in
  (exists w1,
      reset_user_sessions loads user w0 = (Ok tt, w1) /\
      users w1 = users w /\
      reset_password generate_password_hash loads userid pw w =
        (Ok tt, set_users (store_user user)
                  (log_call (CallUpdateUser userid) w1)) /\
      calls (reset_password generate_password_hash loads userid pw w).2 =
        calls w ++ [CallGetUserById userid; CallResetUserSessions userid;
                    CallUpdateUser userid])
  \/
  (exists e w1,
      reset_user_sessions loads user w0 = (Raise e, w1) /\
      users w1 = users w /\
      reset_password generate_password_hash loads userid pw w = (Raise e, w1) /\
      calls w1 =
        calls w ++ [CallGetUserById userid; CallResetUserSessions userid]).
Proof.
  intros Hf user w0.
  pose proof (find_user_id _ _ _ Hf) as Hid.
  rewrite (reset_password_found _ _ _ _ Hf). fold user. fold w0.
  destruct (reset_user_sessions_frame loads user w0) as (r & tbl & fl & E).
  rewrite E.
  assert (Hu : user_id user = userid) by exact Hid.
  rewrite Hu in *.
  destruct r as [[]|e].
  - left. eexists. split; [reflexivity|]. split; [reflexivity|].
    unfold update_user, mbind, M_bind, bind, modify. cbn. rewrite Hid.
    split; [reflexivity|]. cbn. rewrite <- !app_assoc. reflexivity.
  - right. eexists _, _. split; [reflexivity|]. split; [reflexivity|].
    split; [reflexivity|]. cbn. rewrite <- !app_assoc. reflexivity.
Qed.

(** C5.  For a stored user, when the deletion pass is skipped (the store
    is not the database session interface, or it holds more rows than the
    limit): [reset_user_sessions] raises nothing, deletes nothing and
    flashes exactly one message of category "warning" (the secure-cookie
    guidance when the store is not queryable); [reset_password] ends
    normally, with the session table untouched and the user stored with
    the hash of the new password. *)
Theorem revocation_skipped_nonfatal userid pw w u :
  find_user userid (users w) = Some u ->
  revocation_skipped w = true ->
  let user := set_password (generate_password_hash pw) u in
  (forall any : User, exists msg,
      reset_user_sessions loads any w =
        (Ok tt, add_flash (mkFlash msg "warning")
                  (log_call (CallResetUserSessions (user_id any)) w)) /\
      sessions (reset_user_sessions loads any w).2 = sessions w /\
      (session_interface w = SecureCookieSessionInterface ->
       msg = SecureCookieBackend (username any))) /\
  (exists msg w',
      reset_password generate_password_hash loads userid pw w = (Ok tt, w') /\
      sessions w' = sessions w /\
      flashes w' = flashes w ++ [mkFlash msg "warning"] /\
      find_user userid (users w') = Some user /\
      password user = generate_password_hash pw).
Proof.
  intros Hf Hs user. split.
  - intros any.
    destruct (reset_user_sessions_skipped loads any w Hs) as (msg & E & Hc).
    exists msg. rewrite E. auto.
  - rewrite (reset_password_found _ _ _ _ Hf). fold user.
    destruct (reset_user_sessions_skipped loads user
                (log_call (CallGetUserById userid) w)) as (msg & -> & _).
    { exact Hs. }
    exists msg. eexists. split; [reflexivity|]. cbn.
    split; [reflexivity|]. split; [reflexivity|]. split; [|reflexivity].
    eapply find_user_store; [exact Hf|].
    exact (find_user_id _ _ _ Hf).
Qed.

End PasswordReset.

(** ** Loading users *)

Section LoadingUsers.

Context {unicode : UnicodeData}.

Lemma load_user_int (n : Z) (w : World) :
  load_user (PyInt n) w =
  (Ok (find_user n (users w)), log_call (CallGetUserById n) w).
Proof. reflexivity. Qed.

Lemma load_user_converted (v : PyVal) (n : Z) (w : World) :
  py_int v = Ok n -> load_user v w = load_user (PyInt n) w.
Proof.
  intros H. unfold load_user, mbind, M_bind, bind, lift.
  rewrite H. reflexivity.
Qed.

Lemma load_user_parsed (s : Text) (n : Z) (w : World) :
  int_of_str s = Some n ->
  load_user (PyStr s) w = load_user (PyInt n) w.
Proof.
  intros H. apply load_user_converted. cbn [py_int]. rewrite H. reflexivity.
Qed.

Lemma load_user_raise (v : PyVal) (e : Exn) (w : World) :
  py_int v = Raise e -> load_user v w = (Raise e, w).
Proof.
  intros H. unfold load_user, mbind, M_bind, bind, lift. rewrite H.
  reflexivity.
Qed.

Lemma load_user_jwt_sub (h d : gmap string PyVal) (s : PyVal) (w : World) :
  d !! "sub" = Some s ->
  load_user_jwt h d w =
  match load_user s w with
  | (Ok user, w1) => (Ok user, set_g_user user w1)
  | (Raise e, w1) => (Raise e, w1)
  end.
Proof.
  intros H. unfold load_user_jwt, subscript, mbind, M_bind, bind, lift.
  rewrite H. destruct (load_user s w) as [[user|e] w1]; reflexivity.
Qed.

(** C7.  For every integer [n], [load_user] on the decimal text of [n] and
    [load_user] on the integer [n] are the same call: same user, same
    effect.  [load_user_jwt] with the subject claim [str(n)] returns that
    same user. *)
Theorem load_user_identity_space (n : Z) (w : World) :
  load_user (PyStr (py_str n)) w = load_user (PyInt n) w /\
  (load_user (PyInt n) w).1 = Ok (find_user n (users w)) /\
  forall h d : gmap string PyVal,
    (load_user_jwt h (<["sub" := PyStr (py_str n)]> d) w).1 =
    (load_user (PyInt n) w).1.
Proof.
  assert (H := load_user_parsed (py_str n) n w (int_of_py_str n)).
  split; [exact H|]. split; [reflexivity|].
  intros h d.
  rewrite (load_user_jwt_sub h _ (PyStr (py_str n)))
    by apply lookup_insert_eq.
  rewrite H. reflexivity.
Qed.

(** C9.  For a JWT payload whose subject claim is [s]: [load_user_jwt]
    calls [load_user s]; when that returns a user (or [None]) it assigns it
    to [g.user] and returns it, and when that raises, the exception
    propagates with [g.user] not assigned.  The user table, the session
    table, the session interface and the flash queue are left as they
    were. *)
Theorem load_user_jwt_context (h d : gmap string PyVal) (s : PyVal) (w : World) :
  d !! "sub" = Some s ->
  match load_user s w with
  | (Ok user, w1) =>
      load_user_jwt h d w = (Ok user, set_g_user user w1) /\
      g_user (load_user_jwt h d w).2 = Assigned user
  | (Raise e, w1) =>
      load_user_jwt h d w = (Raise e, w) /\
      g_user (load_user_jwt h d w).2 = g_user w
  end /\
  users (load_user_jwt h d w).2 = users w /\
  sessions (load_user_jwt h d w).2 = sessions w /\
  session_interface (load_user_jwt h d w).2 = session_interface w /\
  flashes (load_user_jwt h d w).2 = flashes w.
Proof.
  intros H. rewrite (load_user_jwt_sub h d s w H).
  destruct (py_int s) as [n|e] eqn:E.
  - rewrite (load_user_converted s n w E), load_user_int. cbn. auto.
  - rewrite (load_user_raise s e w E). cbn. auto.
Qed.


End LoadingUsers.

(** ** Start-up configuration *)

Lemma lookup_with_default (k k' : string) (v : CfgVal) (cfg : Config) :
  with_default k v cfg !! k' =
  match cfg !! k' with
  | Some x => Some x
  | None => if bool_decide (k = k') then Some v else None
  end.
Proof.
  unfold with_default. destruct (cfg !! k) as [x|] eqn:E.
  - destruct (cfg !! k') eqn:E'; [reflexivity|].
    case_bool_decide; [congruence|reflexivity].
  - rewrite lookup_insert. case_decide as Hk.
    + subst k'. rewrite E, bool_decide_eq_true_2; reflexivity.
    + destruct (cfg !! k'); rewrite ?bool_decide_eq_false_2 by exact Hk;
        reflexivity.
Qed.

Lemma lookup_apply_defaults (l : list (string * CfgVal)) (k : string)
    (cfg : Config) :
  apply_defaults l cfg !! k =
  match cfg !! k with
  | Some x => Some x
  | None => default_of k l
  end.
Proof.
  revert cfg. induction l as [|[k' v] l IH]; intros cfg.
  - cbn. destruct (cfg !! k); reflexivity.
  - unfold apply_defaults in *. cbn [foldl fst snd default_of].
    rewrite IH, lookup_with_default.
    destruct (cfg !! k); [reflexivity|].
    case_bool_decide; reflexivity.
Qed.

(** [_init_config], branch by branch. *)
Lemma init_config_eq (cfg : Config) :
  _init_config cfg =
  let cfg1 :=
    apply_defaults
      (base_defaults (default (VStr "Public") (cfg !! "AUTH_ROLE_PUBLIC"))) cfg in
  if configured_ldap cfg then
    match cfg !! "AUTH_LDAP_SERVER" with
    | None => (Raise (Exception no_ldap_server), cfg1)
    | Some _ =>
        (Ok tt, apply_defaults rate_defaults (apply_defaults ldap_defaults cfg1))
    end
  else (Ok tt, apply_defaults rate_defaults cfg1).
Proof.
  unfold _init_config, setdefault, mbind, mret, M_bind, M_ret, bind, ret,
    modify, reads, gets, raise.
  change (with_default "AUTH_USER_REGISTRATION" (VBool false)
            (with_default "AUTH_TYPE" (VInt AUTH_DB)
               (with_default "AUTH_ROLE_PUBLIC" (VStr "Public")
                  (with_default "AUTH_ROLE_ADMIN" (VStr "Admin") cfg))))
    with (apply_defaults (take 4 (base_defaults VNone)) cfg).
  unfold auth_role_public, config_item at 1.
  rewrite lookup_apply_defaults.
  set (role := default (VStr "Public") (cfg !! "AUTH_ROLE_PUBLIC")).
  assert (Hp : match cfg !! "AUTH_ROLE_PUBLIC" with
               | Some x => Some x
               | None => default_of "AUTH_ROLE_PUBLIC"
                           (take 4 (base_defaults VNone))
               end = Some role)
    by (unfold role; destruct (cfg !! "AUTH_ROLE_PUBLIC"); reflexivity).
  rewrite Hp. cbv beta iota zeta.
  change (with_default "AUTH_API_LOGIN_ALLOW_MULTIPLE_PROVIDERS" (VBool false)
            (with_default "AUTH_ROLES_SYNC_AT_LOGIN" (VBool false)
               (with_default "AUTH_ROLES_MAPPING" (VDict [])
                  (with_default "AUTH_USER_REGISTRATION_ROLE_JMESPATH" VNone
                     (with_default "AUTH_USER_REGISTRATION_ROLE" role
                        (apply_defaults (take 4 (base_defaults VNone)) cfg))))))
    with (apply_defaults (base_defaults role) cfg).
  set (cfg1 := apply_defaults (base_defaults role) cfg).
  assert (Ht : auth_type cfg1 =
               Ok (default (VInt AUTH_DB) (cfg !! "AUTH_TYPE"))).
  { unfold auth_type, config_item, cfg1. rewrite lookup_apply_defaults.
    destruct (cfg !! "AUTH_TYPE"); reflexivity. }
  assert (Hs : cfg1 !! "AUTH_LDAP_SERVER" = cfg !! "AUTH_LDAP_SERVER").
  { unfold cfg1. rewrite lookup_apply_defaults.
    destruct (cfg !! "AUTH_LDAP_SERVER"); reflexivity. }
  rewrite Ht. unfold configured_ldap.
  destruct (cfg !! "AUTH_TYPE") as [t|]; unfold default, from_option, id.
  - destruct (eq_int t AUTH_LDAP); [|reflexivity].
    rewrite Hs. destruct (cfg !! "AUTH_LDAP_SERVER"); [|reflexivity].
    cbv beta iota zeta. unfold apply_defaults, rate_defaults, ldap_defaults.
    cbn [foldl fst snd]. reflexivity.
  - reflexivity.
Qed.


(** C6.  [_init_config] raises only in one case: the configured auth type
    is LDAP and [AUTH_LDAP_SERVER] is not a key of the configuration; the
    exception is the [Exception] with the missing-server message.  With
    auth type LDAP and the server key present it ends normally, keeps the
    server entry, and every key of the LDAP table (search filter, domain
    suffix, TLS options, uid, group, first name, last name and email
    fields among them) keeps its configured value or, if it had none, gets
    the table's default. *)
Theorem init_config_ldap (cfg : Config) :
  configured_ldap cfg = true ->
  (cfg !! "AUTH_LDAP_SERVER" = None ->
   (_init_config cfg).1 = Raise (Exception no_ldap_server)) /\
  (forall server, cfg !! "AUTH_LDAP_SERVER" = Some server ->
     (_init_config cfg).1 = Ok tt /\
     (_init_config cfg).2 !! "AUTH_LDAP_SERVER" = Some server /\
     forall k v, (k, v) ∈ ldap_defaults ->
       (_init_config cfg).2 !! k = Some (default v (cfg !! k))) /\
  (forall cfg0 e, (_init_config cfg0).1 = Raise e ->
     e = Exception no_ldap_server /\
     configured_ldap cfg0 = true /\ cfg0 !! "AUTH_LDAP_SERVER" = None).
Proof.
  intros Hl. split; [|split].
  - intros Hs. rewrite init_config_eq. cbv zeta. rewrite Hl, Hs. reflexivity.
  - intros server Hs. rewrite init_config_eq. cbv zeta. rewrite Hl, Hs.
    cbn [fst snd]. split; [reflexivity|]. split.
    + rewrite !lookup_apply_defaults, Hs. reflexivity.
    + intros k v Hin. rewrite !lookup_apply_defaults.
      destruct (cfg !! k) as [x|] eqn:Ek; [reflexivity|].
      unfold ldap_defaults in Hin.
      repeat (apply elem_of_cons in Hin as [Hin|Hin];
              [injection Hin as -> ->; reflexivity|]).
      inversion Hin.
  - intros cfg0 e. rewrite init_config_eq. cbv zeta.
    destruct (configured_ldap cfg0); [|discriminate].
    destruct (cfg0 !! "AUTH_LDAP_SERVER"); [discriminate|].
    cbn. intros [= <-]. auto.
Qed.

(** ** OAuth allow-lists *)

Lemma for_each_provider_ok (ps : list Provider) (m : Manager) :
  exists m', for_each_provider ps m = (Ok tt, m') /\
             oauth_allow_list m' = register_allow_lists ps (oauth_allow_list m).
Proof.
  revert m. induction ps as [|p ps IH]; intros m.
  - exists m. split; reflexivity.
  - cbn [for_each_provider].
    unfold mbind, mret, M_bind, M_ret, bind, ret, modify, gets.
    cbn [register_allow_lists foldl].
    destruct (oauth_user_info m); cbn [negb];
      destruct (whitelist p) as [wl|];
      match goal with
      | |- exists m', for_each_provider ps ?m0 = _ /\ _ =>
          destruct (IH m0) as (m' & E1 & E2); exists m';
          split; [exact E1|rewrite E2; reflexivity]
      end.
Qed.

Lemma register_allow_lists_other (ps : list Provider) (n : string)
    (r : gmap string (list string)) :
  n ∉ name <$> ps -> register_allow_lists ps r !! n = r !! n.
Proof.
  revert r. induction ps as [|p ps IH]; intros r Hn; [reflexivity|].
  rewrite fmap_cons, not_elem_of_cons in Hn. destruct Hn as [Hp Hn].
  unfold register_allow_lists in *. cbn [foldl]. rewrite IH by exact Hn.
  destruct (whitelist p); [|reflexivity].
  apply lookup_insert_ne. congruence.
Qed.

Lemma register_allow_lists_declared (ps : list Provider) (p : Provider)
    (r : gmap string (list string)) :
  NoDup (name <$> ps) -> p ∈ ps ->
  register_allow_lists ps r !! name p =
  match whitelist p with
  | Some wl => Some wl
  | None => r !! name p
  end.
Proof.
  revert r. induction ps as [|q ps IH]; intros r Hnd Hin; [inversion Hin|].
  rewrite fmap_cons in Hnd. apply NoDup_cons in Hnd as [Hq Hnd].
  apply elem_of_cons in Hin as [->|Hin].
  - change (register_allow_lists (q :: ps) r) with
      (register_allow_lists ps
         (match whitelist q with Some wl => <[name q := wl]> r | None => r end)).
    rewrite register_allow_lists_other by exact Hq.
    destruct (whitelist q); [apply lookup_insert_eq|reflexivity].
  - change (register_allow_lists (q :: ps) r) with
      (register_allow_lists ps
         (match whitelist q with Some wl => <[name q := wl]> r | None => r end)).
    rewrite IH by assumption.
    destruct (whitelist p); [reflexivity|].
    destruct (whitelist q); [|reflexivity].
    apply lookup_insert_ne. intros E. apply Hq. rewrite E.
    apply list_elem_of_fmap_2. exact Hin.
Qed.

Lemma register_allow_lists_entry (ps : list Provider) (n : string)
    (wl : list string) (r : gmap string (list string)) :
  register_allow_lists ps r !! n = Some wl ->
  r !! n = Some wl \/
  exists p, p ∈ ps /\ name p = n /\ whitelist p = Some wl.
Proof.
  revert r. induction ps as [|q ps IH]; intros r H; [left; exact H|].
  change (register_allow_lists (q :: ps) r) with
    (register_allow_lists ps
       (match whitelist q with Some wl => <[name q := wl]> r | None => r end))
    in H.
  apply IH in H as [H|(p & Hin & Hn & Hw)].
  - destruct (whitelist q) as [wq|] eqn:Eq; [|left; exact H].
    rewrite lookup_insert in H. case_decide as Hq.
    + right. exists q. split; [left|]. split; [exact Hq|congruence].
    + left. exact H.
  - right. exists p. split; [right; exact Hin|]. split; assumption.
Qed.

Lemma register_allow_lists_cons (q : Provider) (ps : list Provider)
    (r : gmap string (list string)) :
  register_allow_lists (q :: ps) r =
  register_allow_lists ps
    (match whitelist q with Some wl => <[name q := wl]> r | None => r end).
Proof. reflexivity. Qed.

Lemma register_allow_lists_keeps (ps : list Provider) (n : string)
    (r : gmap string (list string)) :
  is_Some (r !! n) -> is_Some (register_allow_lists ps r !! n).
Proof.
  revert r. induction ps as [|q ps IH]; intros r H; [exact H|].
  rewrite register_allow_lists_cons. apply IH.
  destruct (whitelist q); [|exact H].
  rewrite lookup_insert. case_decide; [eauto|exact H].
Qed.

Lemma register_allow_lists_some (ps : list Provider) (p : Provider)
    (r : gmap string (list string)) :
  p ∈ ps -> is_Some (whitelist p) ->
  is_Some (register_allow_lists ps r !! name p).
Proof.
  revert r. induction ps as [|q ps IH]; intros r Hin Hw; [inversion Hin|].
  rewrite register_allow_lists_cons.
  apply elem_of_cons in Hin as [->|Hin].
  - apply register_allow_lists_keeps. destruct Hw as [wl ->].
    rewrite lookup_insert_eq. eauto.
  - apply IH; assumption.
Qed.

(** C8.  With auth type OAUTH and the allow-list registry empty before (its
    initial value), [_init_auth] ends normally and afterwards the registry
    has an entry for a name exactly when a descriptor with that name
    declares an allow-list, and the entry is an allow-list so declared.
    For providers with distinct names: each provider's name is mapped to
    its declared allow-list, and has no entry if it declares none.  A
    provider without entry is allowed for every identity. *)
Theorem init_auth_allow_list (cfg : Config) (m : Manager) (ps : list Provider) :
  cfg !! "AUTH_TYPE" = Some (VInt AUTH_OAUTH) ->
  cfg !! "OAUTH_PROVIDERS" = Some (VProviders ps) ->
  oauth_allow_list m = ∅ ->
  exists m',
    _init_auth cfg m = (Ok tt, m') /\
    (forall n, is_Some (oauth_allow_list m' !! n) <->
               exists p, p ∈ ps /\ name p = n /\ is_Some (whitelist p)) /\
    (forall n wl, oauth_allow_list m' !! n = Some wl ->
               exists p, p ∈ ps /\ name p = n /\ whitelist p = Some wl) /\
    (NoDup (name <$> ps) ->
     forall p, p ∈ ps -> oauth_allow_list m' !! name p = whitelist p) /\
    (forall n identity, oauth_allow_list m' !! n = None ->
       is_allowed (oauth_allow_list m') n identity = true).
Proof.
  intros Ht Hp Hr.
  unfold _init_auth, for_each_of, auth_type, oauth_providers, config_item,
    mbind, mret, M_bind, M_ret, bind, ret, modify, lift.
  rewrite Ht, Hp.
  change (eq_int (VInt AUTH_OAUTH) AUTH_OID) with false.
  change (eq_int (VInt AUTH_OAUTH) AUTH_OAUTH) with true.
  cbv beta iota.
  destruct (for_each_provider_ok ps
              (set_oauth_remotes (fun _ => ∅) (set_oauth m))) as (m' & -> & Hm).
  cbn in Hm. rewrite Hr in Hm.
  assert (Hentry : forall n wl, oauth_allow_list m' !! n = Some wl ->
            exists p, p ∈ ps /\ name p = n /\ whitelist p = Some wl).
  { intros n wl H. rewrite Hm in H.
    apply register_allow_lists_entry in H as [H|H]; [|exact H].
    rewrite lookup_empty in H. discriminate H. }
  exists m'. split; [reflexivity|]. split; [|split; [exact Hentry|split]].
  - intros n. split.
    + intros [wl H]. destruct (Hentry n wl H) as (p & Hin & Hn & Hw).
      exists p. rewrite Hw. eauto.
    + intros (p & Hin & <- & Hw). rewrite Hm.
      apply register_allow_lists_some; assumption.
  - intros Hnd p Hin.
    rewrite Hm, register_allow_lists_declared by assumption.
    destruct (whitelist p); [reflexivity|apply lookup_empty].
  - intros n identity H. unfold is_allowed. rewrite H. reflexivity.
Qed.

(** ** The scenarios, evaluated *)

(** Membership in a list that is written out. *)
Ltac elem_of_concrete :=
  apply list_elem_of_In; cbn [In]; auto 30.

Lemma Z_gt_intro (a b : Z) : (a >? b) = true -> a > b.
Proof. apply Z.gtb_gt. Qed.

Lemma Z_le_intro (a b : Z) : (a <=? b) = true -> a <= b.
Proof. apply Z.leb_le. Qed.

(** A table of sessions that all belong to user 9. *)
Lemma sessions_from_owned (pk : Z) (n : nat) :
  Forall (fun r => owned_by example_loads bob r = true) (sessions_from pk n).
Proof.
  revert pk. induction n as [|n IH]; intros pk; [constructor|].
  cbn [sessions_from]. constructor; [vm_compute; reflexivity|apply IH].
Qed.

Lemma sessions_from_loadable (pk : Z) (n : nat) :
  Forall (fun r => loadable example_loads r = true) (sessions_from pk n).
Proof.
  revert pk. induction n as [|n IH]; intros pk; [constructor|].
  cbn [sessions_from]. constructor; [vm_compute; reflexivity|apply IH].
Qed.

Lemma filter_none {A} (P : A -> Prop) `{!forall x, Decision (P x)} (l : list A) :
  (forall x, x ∈ l -> ~ P x) -> filter P l = [].
Proof.
  induction l as [|a l IH]; intros Hall; [reflexivity|].
  rewrite filter_cons_False by (apply Hall; left).
  apply IH. intros x Hx. apply Hall. right. exact Hx.
Qed.

Lemma reset_user_sessions_threshold_witness :
  ((reset_user_sessions example_loads bob
      (world_of AirflowDatabaseSessionInterface (many_sessions 50001))).1 = Ok tt /\
   sessions (reset_user_sessions example_loads bob
      (world_of AirflowDatabaseSessionInterface (many_sessions 50001))).2 =
     many_sessions 50001 /\
   flashes (reset_user_sessions example_loads bob
      (world_of AirflowDatabaseSessionInterface (many_sessions 50001))).2 =
     [mkFlash (SessionsNotDeleted "bob" 50001) "warning"]) /\
  ((reset_user_sessions example_loads bob
      (world_of AirflowDatabaseSessionInterface (many_sessions 50000))).1 = Ok tt /\
   sessions (reset_user_sessions example_loads bob
      (world_of AirflowDatabaseSessionInterface (many_sessions 50000))).2 = [] /\
   flashes (reset_user_sessions example_loads bob
      (world_of AirflowDatabaseSessionInterface (many_sessions 50000))).2 = []).
Proof.
  split.
  - destruct (reset_user_sessions_threshold example_loads bob
                (world_of AirflowDatabaseSessionInterface (many_sessions 50001))
                eq_refl) as [H _].
    destruct H as (H1 & H2 & H3); [apply Z_gt_intro; vm_compute; reflexivity|].
    split; [exact H1|]. split; [exact H2|].
    rewrite H3. cbn [world_of flashes sessions username bob app].
    replace (Z.of_nat (length (many_sessions 50001))) with 50001
      by (vm_compute; reflexivity).
    reflexivity.
  - destruct (reset_user_sessions_threshold example_loads bob
                (world_of AirflowDatabaseSessionInterface (many_sessions 50000))
                eq_refl) as [_ H].
    destruct H as [H1 H2]; [apply Z_le_intro; vm_compute; reflexivity|].
    destruct (H2 (many_sessions 50000) []) as [H3 H4].
    + cbn [world_of sessions]. rewrite app_nil_r. reflexivity.
    + apply sessions_from_loadable.
    + intros bad Hbad. discriminate Hbad.
    + split; [apply H4; reflexivity|]. split; [|exact H1].
      rewrite H3. cbn [world_of sessions]. apply filter_none.
      intros r Hr Hn. apply Hn. split; [exact Hr|].
      pose proof (sessions_from_owned 1 (Z.to_nat 50000)) as Ho.
      rewrite Forall_forall in Ho. apply Ho. exact Hr.
Defined.

Lemma reset_user_sessions_exact_witness :
  reset_user_sessions example_loads alice
    (world_of AirflowDatabaseSessionInterface five_sessions) =
  (Ok tt, mkWorld [alice; bob] AirflowDatabaseSessionInterface
            [session_of 2 9; session_of 4 9] [] Unset
            [CallResetUserSessions 7]).
Proof.
  rewrite (reset_user_sessions_exact example_loads alice
             (world_of AirflowDatabaseSessionInterface five_sessions)).
  - vm_compute. reflexivity.
  - reflexivity.
  - vm_compute. discriminate.
  - repeat constructor.
Defined.

Lemma reset_user_sessions_exact_counterexample :
  session_interface (world_of AirflowDatabaseSessionInterface corrupt_between)
    = AirflowDatabaseSessionInterface /\
  Z.of_nat (length (sessions
     (world_of AirflowDatabaseSessionInterface corrupt_between))) <= 50000 /\
  sessions (reset_user_sessions example_loads alice
     (world_of AirflowDatabaseSessionInterface corrupt_between)).2 =
    [corrupt_session 2; session_of 3 7] /\
  ~ deletes_exactly_owned example_loads alice
      (world_of AirflowDatabaseSessionInterface corrupt_between).
Proof.
  split; [reflexivity|]. split; [vm_compute; discriminate|].
  split; [vm_compute; reflexivity|].
  unfold deletes_exactly_owned. vm_compute. discriminate.
Qed.

Lemma reset_user_sessions_unloadable_witness :
  reset_user_sessions example_loads alice
    (world_of AirflowDatabaseSessionInterface corrupt_between) =
  (Raise UnpicklingError,
   mkWorld [alice; bob] AirflowDatabaseSessionInterface
     [corrupt_session 2; session_of 3 7] [] Unset [CallResetUserSessions 7]).
Proof.
  rewrite (reset_user_sessions_unloadable example_loads alice
             (world_of AirflowDatabaseSessionInterface corrupt_between)
             [session_of 1 7] (corrupt_session 2) [session_of 3 7]
             UnpicklingError).
  - vm_compute. reflexivity.
  - reflexivity.
  - vm_compute. discriminate.
  - reflexivity.
  - repeat constructor.
  - reflexivity.
Defined.

Lemma reset_user_sessions_unloadable_counterexample :
  reset_user_sessions example_loads alice
    (world_of AirflowDatabaseSessionInterface corrupt_first) =
  (Raise UnpicklingError,
   log_call (CallResetUserSessions 7)
     (world_of AirflowDatabaseSessionInterface corrupt_first)) /\
  owned_by example_loads alice (session_of 2 7) = true /\
  ~ scan_skips_unloadable example_loads alice
      (world_of AirflowDatabaseSessionInterface corrupt_first).
Proof.
  split; [vm_compute; reflexivity|]. split; [vm_compute; reflexivity|].
  intros [H _]. vm_compute in H. discriminate H.
Qed.

Lemma reset_password_order_witness :
  reset_password example_hash example_loads 7 "new"
    (world_of AirflowDatabaseSessionInterface five_sessions) =
  (Ok tt,
   mkWorld [mkUser 7 "alice" "pbkdf2:sha256:new" true; bob]
     AirflowDatabaseSessionInterface [session_of 2 9; session_of 4 9] [] Unset
     [CallGetUserById 7; CallResetUserSessions 7; CallUpdateUser 7]).
Proof.
  destruct (reset_password_order example_hash example_loads 7 "new"
              (world_of AirflowDatabaseSessionInterface five_sessions) alice
              eq_refl) as [(w1 & H1 & _ & H2 & _)|(e & w1 & H1 & _)].
  - rewrite H2. vm_compute in H1. injection H1 as <-. vm_compute. reflexivity.
  - vm_compute in H1. discriminate H1.
Defined.

Lemma reset_password_order_counterexample :
  calls (reset_password example_hash example_loads 7 "new"
           (world_of AirflowDatabaseSessionInterface five_sessions)).2 =
    [CallGetUserById 7; CallResetUserSessions 7; CallUpdateUser 7] /\
  called_before (CallUpdateUser 7) (CallResetUserSessions 7)
    (calls (reset_password example_hash example_loads 7 "new"
              (world_of AirflowDatabaseSessionInterface five_sessions)).2) = false /\
  (reset_password example_hash example_loads 7 "new"
     (world_of AirflowDatabaseSessionInterface corrupt_first)).1 =
    Raise UnpicklingError /\
  calls (reset_password example_hash example_loads 7 "new"
           (world_of AirflowDatabaseSessionInterface corrupt_first)).2 =
    [CallGetUserById 7; CallResetUserSessions 7] /\
  find_user 7 (users (reset_password example_hash example_loads 7 "new"
                 (world_of AirflowDatabaseSessionInterface corrupt_first)).2) =
    Some alice.
Proof. repeat split; vm_compute; reflexivity. Qed.

Lemma revocation_skipped_nonfatal_witness :
  exists msg w',
    reset_password example_hash example_loads 7 "new"
      (world_of SecureCookieSessionInterface five_sessions) = (Ok tt, w') /\
    sessions w' = five_sessions /\
    flashes w' = [mkFlash msg "warning"] /\
    find_user 7 (users w') = Some (mkUser 7 "alice" "pbkdf2:sha256:new" true) /\
    "pbkdf2:sha256:new" = example_hash "new".
Proof.
  exact (proj2 (revocation_skipped_nonfatal example_hash example_loads 7 "new"
                  (world_of SecureCookieSessionInterface five_sessions) alice
                  eq_refl eq_refl)).
Defined.

Lemma load_user_jwt_context_witness :
  load_user_jwt (unicode := unicode_14_0) ∅ {["sub" := PyStr (text "9")]}
    (world_of AirflowDatabaseSessionInterface five_sessions) =
  (Ok (Some bob),
   set_g_user (Some bob)
     (log_call (CallGetUserById 9)
        (world_of AirflowDatabaseSessionInterface five_sessions))).
Proof.
  exact (proj1 (proj1 (load_user_jwt_context (unicode := unicode_14_0)
                         ∅ {["sub" := PyStr (text "9")]}
                         (PyStr (text "9"))
                         (world_of AirflowDatabaseSessionInterface five_sessions)
                         eq_refl))).
Defined.



Lemma init_config_ldap_witness :
  (_init_config ldap_config).1 = Ok tt /\
  (_init_config ldap_config).2 !! "AUTH_LDAP_SERVER" =
    Some (VStr "ldap://ldap.example.com") /\
  (_init_config ldap_config).2 !! "AUTH_LDAP_UID_FIELD" =
    Some (VStr "sAMAccountName") /\
  (_init_config ldap_config).2 !! "AUTH_LDAP_EMAIL_FIELD" = Some (VStr "mail") /\
  (_init_config ldap_config_no_server).1 = Raise (Exception no_ldap_server).
Proof.
  destruct (init_config_ldap ldap_config eq_refl) as (_ & H & _).
  destruct (H (VStr "ldap://ldap.example.com") eq_refl) as (H1 & H2 & H3).
  split; [exact H1|]. split; [exact H2|].
  split; [apply (H3 "AUTH_LDAP_UID_FIELD" (VStr "uid")); unfold ldap_defaults;
          elem_of_concrete|].
  split; [apply (H3 "AUTH_LDAP_EMAIL_FIELD" (VStr "mail")); unfold ldap_defaults;
          elem_of_concrete|].
  exact (proj1 (init_config_ldap ldap_config_no_server eq_refl) eq_refl).
Defined.

Lemma init_auth_allow_list_witness :
  exists m',
    _init_auth oauth_config fresh_manager = (Ok tt, m') /\
    oauth_allow_list m' !! "google" = Some ["a@x.com"] /\
    oauth_allow_list m' !! "github" = None /\
    is_allowed (oauth_allow_list m') "github" "b@x.com" = true.
Proof.
  destruct (init_auth_allow_list oauth_config fresh_manager example_providers
              eq_refl eq_refl eq_refl) as (m' & H1 & _ & _ & H2 & H3).
  assert (Hnd : NoDup (name <$> example_providers))
    by (apply (bool_decide_unpack _); vm_compute; reflexivity).
  assert (Hg : oauth_allow_list m' !! "github" = None).
  { apply (H2 Hnd (mkProvider "github" "github-settings" None)).
    unfold example_providers. elem_of_concrete. }
  exists m'. split; [exact H1|].
  split; [apply (H2 Hnd (mkProvider "google" "google-settings" (Some ["a@x.com"])));
          unfold example_providers; elem_of_concrete|].
  split; [exact Hg|].
  apply H3. exact Hg.
Defined.

(** * Further properties *)

(** ** Session revocation, whatever the payloads *)

Lemma filter_all {A} (P : A -> Prop) `{!forall x, Decision (P x)} (l : list A) :
  (forall x, x ∈ l -> P x) -> filter P l = l.
Proof.
  induction l as [|a l IH]; intros Hall; [reflexivity|].
  rewrite filter_cons_True by (apply Hall; left).
  rewrite IH; [reflexivity|]. intros x Hx. apply Hall. right. exact Hx.
Qed.

Section RevocationAnyPayload.

Context (loads : string -> Result SessionDetails).

(** The rows split into a longest prefix that loads and, if there is one,
    the first row that does not load. *)
Lemma loadable_prefix (rows : list SessionRecord) :
  Forall (fun r => loadable loads r = true) rows \/
  exists pre bad post e,
    rows = pre ++ bad :: post /\
    Forall (fun r => loadable loads r = true) pre /\
    loads (want_bytes (data bad)) = Raise e.
Proof.
  induction rows as [|s rows IH]; [left; constructor|].
  destruct (loads (want_bytes (data s))) as [d|e] eqn:E.
  - assert (Hs : loadable loads s = true) by (unfold loadable; rewrite E; reflexivity).
    destruct IH as [IH|(pre & bad & post & e & -> & Hpre & Hbad)].
    + left. constructor; assumption.
    + right. exists (s :: pre), bad, post, e.
      split; [reflexivity|]. split; [constructor; assumption|exact Hbad].
  - right. exists [], s, rows, e. split; [reflexivity|]. split; [constructor|exact E].
Qed.

(** In every case the table afterwards is the table before without the
    user's rows among some rows [pre] of the table. *)
Lemma reset_user_sessions_table (user : User) (w : World) :
  exists (pre : list SessionRecord) r fl,
    (forall x, x ∈ pre -> x ∈ sessions w) /\
    reset_user_sessions loads user w =
    (r, mkWorld (users w) (session_interface w)
          (filter (fun x => ~ (x ∈ pre /\ owned_by loads user x = true))
                  (sessions w))
          fl (g_user w) (calls w ++ [CallResetUserSessions (user_id user)])).
Proof.
  assert (Hnil : filter (fun x => ~ (x ∈ [] /\ owned_by loads user x = true))
                   (sessions w) = sessions w).
  { apply filter_all. intros x _ [Hx _]. inversion Hx. }
  destruct (session_interface w) eqn:E.
  - destruct (Z.of_nat (length (sessions w))
              >? MAX_NUM_DATABASE_USER_SESSIONS) eqn:Hn.
    + apply Z.gtb_gt in Hn.
      rewrite reset_user_sessions_unhealthy by assumption.
      exists [], (Ok tt). eexists. split; [intros x Hx; inversion Hx|].
      rewrite Hnil, <- E. reflexivity.
    + rewrite Z.gtb_ltb in Hn. apply Z.ltb_ge in Hn.
      rewrite reset_user_sessions_scan by assumption.
      destruct (loadable_prefix (sessions w))
        as [Hall|(pre & bad & post & e & Hs & Hpre & Hbad)].
      * rewrite for_each_session_ok by exact Hall.
        exists (sessions w), (Ok tt), (flashes w). split; [auto|].
        rewrite <- E. reflexivity.
      * pose proof (for_each_session_raise loads user pre bad post e
                      (log_call (CallResetUserSessions (user_id user)) w)
                      Hpre Hbad) as Hr.
        rewrite <- Hs in Hr. rewrite Hr.
        exists pre, (Raise e), (flashes w). split.
        -- intros x Hx. rewrite Hs. apply elem_of_app. left. exact Hx.
        -- rewrite <- E. reflexivity.
  - rewrite reset_user_sessions_cookie by assumption.
    exists [], (Ok tt). eexists. split; [intros x Hx; inversion Hx|].
    rewrite Hnil, <- E. reflexivity.
Qed.

(** The scan over a table whose rows all load, and over a table with a
    row that does not. *)
Lemma scan_all_loadable (user : User) (w : World) :
  session_interface w = AirflowDatabaseSessionInterface ->
  Z.of_nat (length (sessions w)) <= MAX_NUM_DATABASE_USER_SESSIONS ->
  Forall (fun r => loadable loads r = true) (sessions w) ->
  reset_user_sessions loads user w =
  (Ok tt, set_sessions (filter (fun r => owned_by loads user r = false))
            (log_call (CallResetUserSessions (user_id user)) w)).
Proof.
  intros E Hn Hl. rewrite reset_user_sessions_scan by assumption.
  rewrite for_each_session_ok by exact Hl. f_equal.
  destruct w as [us i tbl fl g cs]. unfold set_sessions, log_call; cbn.
  f_equal. apply filter_ext_elem. intros r Hr.
  destruct (owned_by loads user r); split; try discriminate; try reflexivity.
  - intros H. exfalso. apply H. auto.
  - intros _ [_ H]. discriminate H.
Qed.

Lemma scan_first_unloadable (user : User) (w : World) pre bad post e :
  session_interface w = AirflowDatabaseSessionInterface ->
  Z.of_nat (length (sessions w)) <= MAX_NUM_DATABASE_USER_SESSIONS ->
  sessions w = pre ++ bad :: post ->
  Forall (fun r => loadable loads r = true) pre ->
  loads (want_bytes (data bad)) = Raise e ->
  (reset_user_sessions loads user w).1 = Raise e.
Proof.
  intros E Hn Hs Hl Hb. rewrite reset_user_sessions_scan by assumption.
  rewrite Hs, (for_each_session_raise _ _ _ _ _ e) by assumption. reflexivity.
Qed.

(** A row that is not the user's stays, whatever happens. *)
Lemma other_rows_stay (user : User) (w : World) (r : SessionRecord) :
  r ∈ sessions w -> owned_by loads user r = false ->
  r ∈ sessions (reset_user_sessions loads user w).2.
Proof.
  intros Hx Ho.
  destruct (reset_user_sessions_table user w) as (pre & res & fl & Hpre & ->).
  cbn [snd sessions]. apply list_elem_of_filter. split; [|exact Hx].
  intros [_ H]. congruence.
Qed.

(** X1.  Whatever the store, the payloads and the outcome (normal return
    or exception), [reset_user_sessions] leaves the user table, the session
    interface and [g.user] as they were; the session table afterwards is a
    sublist of the table before (no row added, changed or reordered); and a
    row that is not the user's (its payload does not load, or its
    ["_user_id"] differs from the user's id) is still in the table. *)
Theorem reset_user_sessions_removes_only_owned (user : User) (w : World) :
  users (reset_user_sessions loads user w).2 = users w /\
  session_interface (reset_user_sessions loads user w).2 = session_interface w /\
  g_user (reset_user_sessions loads user w).2 = g_user w /\
  sessions (reset_user_sessions loads user w).2 `sublist_of` sessions w /\
  forall r, r ∈ sessions w -> owned_by loads user r = false ->
            r ∈ sessions (reset_user_sessions loads user w).2.
Proof.
  destruct (reset_user_sessions_table user w) as (pre & r & fl & Hpre & ->).
  cbn [fst snd users session_interface g_user sessions].
  split; [reflexivity|]. split; [reflexivity|]. split; [reflexivity|].
  split; [apply sublist_filter|].
  intros x Hx Ho. apply list_elem_of_filter. split; [|exact Hx].
  intros [_ H]. congruence.
Qed.

(** X2.  The owner test compares the entry with the integer id: a row
    whose payload has no ["_user_id"] entry, or has the user's id there as
    text, is kept. *)
Theorem reset_user_sessions_keeps_text_ids (user : User) (w : World)
    (r : SessionRecord) (d : SessionDetails) :
  r ∈ sessions w ->
  loads (want_bytes (data r)) = Ok d ->
  d !! "_user_id" = None \/ d !! "_user_id" = Some (PyStr (py_str (user_id user))) ->
  r ∈ sessions (reset_user_sessions loads user w).2.
Proof.
  intros Hin Hd Hk.
  apply other_rows_stay; [exact Hin|].
  unfold owned_by, dict_get. rewrite Hd.
  destruct Hk as [-> | ->]; reflexivity.
Qed.

(** X3.  With the database session interface and at most 50,000 rows, a
    normal return means that the whole table was scanned: every row's
    payload loads, and no row of the user is left. *)
Theorem reset_user_sessions_ok_complete (user : User) (w : World) :
  session_interface w = AirflowDatabaseSessionInterface ->
  Z.of_nat (length (sessions w)) <= MAX_NUM_DATABASE_USER_SESSIONS ->
  (reset_user_sessions loads user w).1 = Ok tt ->
  Forall (fun r => loadable loads r = true) (sessions w) /\
  forall r, r ∈ sessions (reset_user_sessions loads user w).2 ->
            owned_by loads user r = false.
Proof.
  intros E Hn Hok.
  destruct (loadable_prefix (sessions w))
    as [Hall|(pre & bad & post & e & Hs & Hpre & Hbad)].
  - split; [exact Hall|].
    rewrite scan_all_loadable by assumption. cbn [snd].
    intros r Hr. cbn in Hr. apply list_elem_of_filter in Hr as [Hr _]. exact Hr.
  - rewrite (scan_first_unloadable user w pre bad post e) in Hok
      by assumption.
    discriminate Hok.
Qed.

(** X4.  When every payload loads, revoking a second time changes nothing
    in the session table: the second call returns normally and deletes no
    row. *)
Theorem reset_user_sessions_twice (user : User) (w : World) :
  session_interface w = AirflowDatabaseSessionInterface ->
  Forall (fun r => loadable loads r = true) (sessions w) ->
  let w1 := (reset_user_sessions loads user w).2 in
  (reset_user_sessions loads user w1).1 = Ok tt /\
  sessions (reset_user_sessions loads user w1).2 = sessions w1.
Proof.
  intros E Hall w1.
  destruct (Z.of_nat (length (sessions w))
            >? MAX_NUM_DATABASE_USER_SESSIONS) eqn:Hn.
  - apply Z.gtb_gt in Hn. subst w1.
    rewrite (reset_user_sessions_unhealthy loads user w) by assumption.
    cbn [snd]. rewrite reset_user_sessions_unhealthy; [auto|exact E|exact Hn].
  - rewrite Z.gtb_ltb in Hn. apply Z.ltb_ge in Hn. subst w1.
    rewrite (scan_all_loadable user w) by assumption.
    cbn [snd]. rewrite scan_all_loadable.
    + split; [reflexivity|]. cbn. rewrite list_filter_filter.
      apply list_filter_iff. tauto.
    + exact E.
    + cbn. pose proof (length_filter
        (fun r => owned_by loads user r = false) (sessions w)). lia.
    + cbn. apply Forall_forall. intros r Hr.
      apply list_elem_of_filter in Hr as [_ Hr].
      rewrite Forall_forall in Hall. auto.
Qed.

End RevocationAnyPayload.

(** ** Password reset and user loading at the edges *)

(** X5.  For an id with no stored user, [reset_password] raises
    [AttributeError] (the assignment to [user.password] on [None]) before
    anything else happens: no session is touched, nothing is flashed, and
    [reset_user_sessions] and [update_user] are not entered. *)
Theorem reset_password_unknown_user (generate_password_hash : string -> string)
    (loads : string -> Result SessionDetails) (userid : Z) (pw : string)
    (w : World) :
  find_user userid (users w) = None ->
  reset_password generate_password_hash loads userid pw w =
  (Raise AttributeError, log_call (CallGetUserById userid) w).
Proof.
  intros Hf. unfold reset_password, get_user_by_id.
  unfold mbind, M_bind, bind, modify, gets.
  change (users (log_call (CallGetUserById userid) w)) with (users w).
  rewrite Hf. reflexivity.
Qed.

Section LoadingAtTheEdges.

Context {unicode : UnicodeData}.

(** X6.  A token payload without usable subject: when the ["sub"] claim is
    missing [load_user_jwt] raises [KeyError], when it is [None] it raises
    [TypeError]; in both cases no user is looked up and [g.user] is not
    assigned. *)
Theorem load_user_jwt_no_subject (h d : gmap string PyVal) (w : World) :
  load_user_jwt h (delete "sub" d) w = (Raise (KeyError "sub"), w) /\
  load_user_jwt h (<["sub" := PyNone]> d) w = (Raise TypeError, w).
Proof.
  split.
  - unfold load_user_jwt, subscript, mbind, M_bind, bind, lift.
    rewrite lookup_delete_eq. reflexivity.
  - rewrite (load_user_jwt_sub h _ PyNone) by apply lookup_insert_eq.
    reflexivity.
Qed.

Lemma lstrip_spaces (ws l : list ascii) :
  Forall (fun c => Py_ISSPACE c = true) ws -> lstrip (ws ++ l) = lstrip l.
Proof.
  induction 1 as [|c ws Hc _ IH]; [reflexivity|].
  cbn [app lstrip]. rewrite Hc. exact IH.
Qed.

Lemma rstrip_spaces (l ws : list ascii) :
  Forall (fun c => Py_ISSPACE c = true) ws -> rstrip (l ++ ws) = rstrip l.
Proof.
  intros Hws.
  assert (Hnil : rstrip ws = []).
  { induction Hws as [|c ws Hc _ IH]; [reflexivity|].
    cbn [rstrip]. rewrite IH, Hc. reflexivity. }
  induction l as [|c l IH]; [exact Hnil|].
  cbn [app rstrip]. rewrite IH. reflexivity.
Qed.

Lemma rstrip_app_kept (l1 l2 : list ascii) :
  rstrip l2 <> [] -> rstrip (l1 ++ l2) = l1 ++ rstrip l2.
Proof.
  intros Hne. induction l1 as [|c l1 IH]; [reflexivity|].
  cbn [app rstrip]. rewrite IH.
  destruct (l1 ++ rstrip l2) eqn:E; [|reflexivity].
  apply app_eq_nil in E as [_ E]. contradiction.
Qed.

Lemma rstrip_all_space (l : list ascii) :
  rstrip l = [] -> Forall (fun c => Py_ISSPACE c = true) l.
Proof.
  induction l as [|c l IH]; [constructor|].
  cbn [rstrip]. destruct (rstrip l) eqn:E; [|discriminate].
  destruct (Py_ISSPACE c) eqn:Hc; [|discriminate].
  intros _. constructor; auto.
Qed.

(** The parser skips white space at both ends. *)
Lemma long_from_string_padded (sp1 l sp2 : list ascii) :
  Forall (fun c => Py_ISSPACE c = true) sp1 ->
  Forall (fun c => Py_ISSPACE c = true) sp2 ->
  long_from_string (sp1 ++ l ++ sp2) = long_from_string l.
Proof.
  intros H1 H2. unfold long_from_string.
  rewrite app_assoc, rstrip_spaces by exact H2.
  destruct (rstrip l) eqn:E.
  - apply rstrip_all_space in E.
    assert (Hall : Forall (fun c => Py_ISSPACE c = true) (sp1 ++ l))
      by (apply Forall_app; split; assumption).
    pose proof (rstrip_spaces [] _ Hall) as Hr. cbn [app] in Hr.
    rewrite Hr. reflexivity.
  - rewrite rstrip_app_kept by (rewrite E; discriminate).
    rewrite lstrip_spaces by exact H1. rewrite E. reflexivity.
Qed.

(** White space in front of a text reaches the parser as white space. *)
Lemma transform_chars_spaces (ws : Text) :
  Forall (fun ch => int_space ch = true) ws ->
  exists sp, Forall (fun c => Py_ISSPACE c = true) sp /\
             forall t, transform_chars (ws ++ t) = sp ++ transform_chars t.
Proof.
  induction 1 as [|ch ws Hch _ (sp & Hsp & IH)].
  - exists []. split; [constructor|reflexivity].
  - unfold int_space in Hch. destruct (ch <? 127)%N eqn:Hlt.
    + exists (ascii_of_N ch :: sp). split; [constructor; assumption|].
      intros t. cbn [app transform_chars]. rewrite Hlt, IH. reflexivity.
    + exists (" "%char :: sp). split; [constructor; [reflexivity|assumption]|].
      intros t. cbn [app transform_chars]. rewrite Hlt, Hch, IH. reflexivity.
Qed.

(** Behind a text it does too, unless the text was cut at a question
    mark. *)
Lemma transform_chars_suffix (s ws : Text) (sp : list ascii) :
  (forall t, transform_chars (ws ++ t) = sp ++ transform_chars t) ->
  transform_chars (s ++ ws) = transform_chars s ++ sp \/
  (transform_chars (s ++ ws) = transform_chars s /\
   In "?"%char (transform_chars s)).
Proof.
  intros Hws. induction s as [|x s IH].
  - left. cbn [app transform_chars]. rewrite <- (app_nil_r ws), Hws.
    cbn [transform_chars]. rewrite app_nil_r. reflexivity.
  - cbn [app transform_chars].
    destruct (x <? 127)%N;
      [|destruct (Py_UNICODE_ISSPACE x);
        [|destruct (Py_UNICODE_TODECIMAL x);
          [|right; split; [reflexivity|left; reflexivity]]]];
      (destruct IH as [IH|[IH Hq]];
       [left; rewrite IH; reflexivity
       |right; split; [rewrite IH; reflexivity|right; exact Hq]]).
Qed.

(** An ASCII text reaches the parser as it is; the loop would change
    nothing but the character 0x7F, with which the text is no number
    either way. *)
Lemma transform_chars_ascii (t : Text) :
  forallb (fun ch => ch <? 128)%N t = true ->
  transform_chars t = map ascii_of_N t \/
  (In "?"%char (transform_chars t) /\
   In (ascii_of_N 127) (map ascii_of_N t)).
Proof.
  induction t as [|x t IH]; intros H; [left; reflexivity|].
  cbn [forallb] in H. apply andb_true_iff in H as [Hx Ht].
  specialize (IH Ht). cbn [transform_chars map].
  destruct (x <? 127)%N eqn:Hlt.
  - destruct IH as [IH|[Hq Hd]].
    + left. rewrite IH. reflexivity.
    + right. split; right; assumption.
  - assert (x = 127%N) as ->.
    { apply N.ltb_lt in Hx. apply N.ltb_ge in Hlt. lia. }
    right. split; left; reflexivity.
Qed.

Lemma int_of_str_uniform (t : Text) :
  int_of_str t = long_from_string (transform_chars t).
Proof.
  unfold int_of_str, transform_decimal_and_space_to_ascii.
  destruct (forallb _ t) eqn:E; [|reflexivity].
  destruct (transform_chars_ascii t E) as [->|[Hq Hd]]; [reflexivity|].
  rewrite (long_from_string_refused _ _ Hq) by reflexivity.
  apply (long_from_string_refused _ _ Hd). reflexivity.
Qed.

Lemma int_of_str_padded (ws1 s ws2 : Text) :
  Forall (fun ch => int_space ch = true) ws1 ->
  Forall (fun ch => int_space ch = true) ws2 ->
  int_of_str (ws1 ++ s ++ ws2) = int_of_str s.
Proof.
  intros H1 H2. rewrite !int_of_str_uniform.
  destruct (transform_chars_spaces ws1 H1) as (sp1 & Hsp1 & E1).
  destruct (transform_chars_spaces ws2 H2) as (sp2 & Hsp2 & E2).
  rewrite E1. destruct (transform_chars_suffix s ws2 sp2 E2) as [->|[-> Hq]].
  - apply long_from_string_padded; assumption.
  - rewrite (long_from_string_refused "?" (transform_chars s) Hq)
      by reflexivity.
    apply (long_from_string_refused "?"); [|reflexivity].
    apply in_or_app. right. exact Hq.
Qed.

(** X7.  [load_user] does not see the white space around a text: for
    texts [ws1] and [ws2] of code points that [int] takes as white space
    (tab to carriage return and the space; from outside ASCII the Unicode
    white space, such as the no-break space), loading [ws1 + s + ws2] is
    loading [s]; so the padded decimal text of [n] loads the user with
    id [n]. *)
Theorem load_user_padded (ws1 ws2 s : Text) (n : Z) (w : World) :
  Forall (fun ch => int_space ch = true) ws1 ->
  Forall (fun ch => int_space ch = true) ws2 ->
  load_user (PyStr (ws1 ++ s ++ ws2)) w = load_user (PyStr s) w /\
  load_user (PyStr (ws1 ++ py_str n ++ ws2)) w = load_user (PyInt n) w.
Proof.
  intros H1 H2.
  assert (H : forall t, load_user (PyStr (ws1 ++ t ++ ws2)) w
                        = load_user (PyStr t) w).
  { intros t. unfold load_user, mbind, M_bind, bind, lift. cbn [py_int].
    rewrite int_of_str_padded by assumption. reflexivity. }
  split; [apply H|].
  rewrite H. apply load_user_parsed, int_of_py_str.
Qed.

End LoadingAtTheEdges.

(** ** Start-up configuration, beyond LDAP *)

(** Every default that [_init_config] can fill, in one table. *)
Lemma init_config_lookup (cfg : Config) (k : string) :
  exists l : list (string * CfgVal),
    (_init_config cfg).2 !! k =
    match cfg !! k with
    | Some x => Some x
    | None => default_of k l
    end /\
    forall v, default_of k l = Some v ->
      default_of k
        (base_defaults (default (VStr "Public") (cfg !! "AUTH_ROLE_PUBLIC"))
         ++ ldap_defaults ++ rate_defaults) = Some v.
Proof.
  assert (Happ : forall l1 l2,
            default_of k (l1 ++ l2) =
            match default_of k l1 with
            | Some v => Some v
            | None => default_of k l2
            end).
  { induction l1 as [|[k' v'] l1 IH]; intros l2; [reflexivity|]. cbn.
    case_bool_decide; [reflexivity|apply IH]. }
  set (base := base_defaults (default (VStr "Public") (cfg !! "AUTH_ROLE_PUBLIC"))).
  rewrite init_config_eq. cbv zeta. fold base.
  destruct (configured_ldap cfg).
  - destruct (cfg !! "AUTH_LDAP_SERVER").
    + exists (base ++ ldap_defaults ++ rate_defaults). cbn [snd]. split; [|auto].
      rewrite !lookup_apply_defaults, !Happ.
      destruct (cfg !! k); [reflexivity|].
      destruct (default_of k base); [reflexivity|].
      destruct (default_of k ldap_defaults); reflexivity.
    + exists base. cbn [snd]. split; [apply lookup_apply_defaults|].
      intros v Hv. rewrite Happ, Hv. reflexivity.
  - exists (base ++ rate_defaults). cbn [snd]. split.
    + rewrite !lookup_apply_defaults, Happ.
      destruct (cfg !! k); [reflexivity|].
      destruct (default_of k base); reflexivity.
    + intros v. rewrite !Happ. destruct (default_of k base); [auto|].
      intros Hv. destruct (default_of k ldap_defaults) eqn:El; [|exact Hv].
      exfalso. revert Hv El. unfold rate_defaults, ldap_defaults.
      cbn [default_of]. repeat case_bool_decide; congruence.
Qed.

(** X8.  [_init_config] never overwrites: an entry of the configuration
    keeps its value, whether the call returns or raises.  A key that is in
    none of the default tables is left as it was, present or missing. *)
Theorem init_config_keeps_entries (cfg : Config) (k : string) (v : CfgVal) :
  cfg !! k = Some v ->
  (_init_config cfg).2 !! k = Some v /\
  forall k',
    default_of k' (base_defaults VNone ++ ldap_defaults ++ rate_defaults) = None ->
    (_init_config cfg).2 !! k' = cfg !! k'.
Proof.
  intros Hk. split.
  - destruct (init_config_lookup cfg k) as (l & -> & _). rewrite Hk. reflexivity.
  - intros k' Hnone.
    destruct (init_config_lookup cfg k') as (l & -> & Hl).
    destruct (cfg !! k'); [reflexivity|].
    destruct (default_of k' l) as [x|] eqn:E; [|reflexivity].
    specialize (Hl x eq_refl). exfalso. revert Hl Hnone.
    unfold base_defaults, ldap_defaults, rate_defaults.
    cbn [default_of app]. repeat case_bool_decide; congruence.
Qed.

Lemma apply_defaults_present (l : list (string * CfgVal)) (cfg : Config) :
  (forall k v, default_of k l = Some v -> is_Some (cfg !! k)) ->
  apply_defaults l cfg = cfg.
Proof.
  intros H. apply map_eq. intros k. rewrite lookup_apply_defaults.
  destruct (cfg !! k) eqn:E; [reflexivity|].
  destruct (default_of k l) as [v|] eqn:Ed; [|reflexivity].
  destruct (H k v Ed) as [x Hx]. congruence.
Qed.

Lemma is_Some_apply_defaults (l : list (string * CfgVal)) (cfg : Config)
    (k : string) :
  is_Some (cfg !! k) \/ is_Some (default_of k l) ->
  is_Some (apply_defaults l cfg !! k).
Proof.
  rewrite lookup_apply_defaults. intros [[x ->]|H]; [eauto|].
  destruct (cfg !! k); [eauto|exact H].
Qed.

Lemma base_defaults_keys (r1 r2 : CfgVal) (k : string) :
  is_Some (default_of k (base_defaults r1)) ->
  is_Some (default_of k (base_defaults r2)).
Proof.
  unfold base_defaults. cbn [default_of].
  repeat (case_bool_decide; [eauto|]). auto.
Qed.

Lemma configured_ldap_apply_base (role : CfgVal) (cfg : Config) :
  configured_ldap (apply_defaults (base_defaults role) cfg) = configured_ldap cfg.
Proof.
  unfold configured_ldap. rewrite lookup_apply_defaults.
  destruct (cfg !! "AUTH_TYPE"); reflexivity.
Qed.

Lemma configured_ldap_apply_other (l : list (string * CfgVal)) (cfg : Config) :
  default_of "AUTH_TYPE" l = None ->
  configured_ldap (apply_defaults l cfg) = configured_ldap cfg.
Proof.
  intros H. unfold configured_ldap. rewrite lookup_apply_defaults, H.
  destruct (cfg !! "AUTH_TYPE"); reflexivity.
Qed.

(** X9.  [_init_config] is idempotent: run again on the configuration it
    left, it has the same outcome (the same normal return or the same
    exception) and changes nothing. *)
Theorem init_config_idempotent (cfg : Config) :
  _init_config (_init_config cfg).2 = _init_config cfg.
Proof.
  set (role := default (VStr "Public") (cfg !! "AUTH_ROLE_PUBLIC")).
  set (cfg1 := apply_defaults (base_defaults role) cfg).
  assert (Hbase : forall role' cfg2,
            (forall k, is_Some (cfg1 !! k) -> is_Some (cfg2 !! k)) ->
            apply_defaults (base_defaults role') cfg2 = cfg2).
  { intros role' cfg2 Hsub. apply apply_defaults_present. intros k v Hv.
    apply Hsub, is_Some_apply_defaults. right.
    apply (base_defaults_keys role'). rewrite Hv. eauto. }
  rewrite (init_config_eq cfg). cbv zeta. fold role. fold cfg1.
  destruct (configured_ldap cfg) eqn:Hl.
  - destruct (cfg !! "AUTH_LDAP_SERVER") as [srv|] eqn:Hs.
    + cbn [snd].
      set (cfg3 := apply_defaults rate_defaults
                     (apply_defaults ldap_defaults cfg1)).
      assert (Hsub : forall k, is_Some (cfg1 !! k) -> is_Some (cfg3 !! k)).
      { intros k H. unfold cfg3. do 2 (apply is_Some_apply_defaults; left).
        exact H. }
      rewrite (init_config_eq cfg3). cbv zeta. rewrite (Hbase _ cfg3 Hsub).
      assert (Hc : configured_ldap cfg3 = true).
      { unfold cfg3. rewrite !configured_ldap_apply_other by reflexivity.
        unfold cfg1. rewrite configured_ldap_apply_base. exact Hl. }
      assert (Hs3 : cfg3 !! "AUTH_LDAP_SERVER" = Some srv).
      { unfold cfg3, cfg1. rewrite !lookup_apply_defaults, Hs. reflexivity. }
      rewrite Hc, Hs3. f_equal.
      assert (Hld : apply_defaults ldap_defaults cfg3 = cfg3).
      { apply apply_defaults_present. intros k v Hv. unfold cfg3.
        apply is_Some_apply_defaults. left.
        apply is_Some_apply_defaults. right. rewrite Hv. eauto. }
      rewrite Hld. apply apply_defaults_present. intros k v Hv.
      unfold cfg3. apply is_Some_apply_defaults. right. rewrite Hv. eauto.
    + cbn [snd]. rewrite (init_config_eq cfg1). cbv zeta.
      rewrite (Hbase _ cfg1) by auto.
      unfold cfg1 at 1. rewrite configured_ldap_apply_base, Hl.
      assert (Hs1 : cfg1 !! "AUTH_LDAP_SERVER" = None).
      { unfold cfg1. rewrite lookup_apply_defaults, Hs. reflexivity. }
      rewrite Hs1. reflexivity.
  - cbn [snd].
    set (cfg3 := apply_defaults rate_defaults cfg1).
    assert (Hsub : forall k, is_Some (cfg1 !! k) -> is_Some (cfg3 !! k)).
    { intros k H. unfold cfg3. apply is_Some_apply_defaults. left. exact H. }
    rewrite (init_config_eq cfg3). cbv zeta. rewrite (Hbase _ cfg3 Hsub).
    assert (Hc : configured_ldap cfg3 = false).
    { unfold cfg3. rewrite configured_ldap_apply_other by reflexivity.
      unfold cfg1. rewrite configured_ldap_apply_base. exact Hl. }
    rewrite Hc. f_equal. apply apply_defaults_present. intros k v Hv.
    unfold cfg3. apply is_Some_apply_defaults. right. rewrite Hv. eauto.
Qed.

(** Case analysis on the three outcomes of [_init_config]. *)
Ltac init_config_cases cfg :=
  rewrite (init_config_eq cfg); cbv zeta;
  destruct (configured_ldap cfg) eqn:?;
  [destruct (cfg !! "AUTH_LDAP_SERVER") eqn:?|];
  cbn [fst snd].

Ltac table_key H :=
  revert H; unfold base_defaults, ldap_defaults, rate_defaults;
  cbn [default_of app]; repeat (case_bool_decide; [subst|]); intros H.

(** X10.  When [_init_config] raises, the defaults before the LDAP block
    have been filled in and the ones after the raise have not: every key
    of the base table is present, and the LDAP and rate-limit keys are as
    they were. *)
Theorem init_config_raise_partial (cfg : Config) (e : Exn) :
  (_init_config cfg).1 = Raise e ->
  (forall k, is_Some (default_of k (base_defaults VNone)) ->
             is_Some ((_init_config cfg).2 !! k)) /\
  (forall k, is_Some (default_of k (ldap_defaults ++ rate_defaults)) ->
             (_init_config cfg).2 !! k = cfg !! k).
Proof.
  init_config_cases cfg; try discriminate. intros _. split.
  - intros k Hk. apply is_Some_apply_defaults. right.
    apply (base_defaults_keys VNone). exact Hk.
  - intros k [v Hk].
    table_key Hk; try discriminate Hk; rewrite lookup_apply_defaults;
      match goal with |- context [cfg !! ?key] => destruct (cfg !! key) end;
      reflexivity.
Qed.

(** X11.  With an auth type other than LDAP, [_init_config] cannot raise,
    fills in no LDAP key, and fills in the rate limiting defaults
    ([AUTH_RATE_LIMITED] true, [AUTH_RATE_LIMIT] "5 per 40 second") where
    the configuration has no value. *)
Theorem init_config_not_ldap (cfg : Config) :
  configured_ldap cfg = false ->
  (_init_config cfg).1 = Ok tt /\
  (forall k, is_Some (default_of k ldap_defaults) ->
             (_init_config cfg).2 !! k = cfg !! k) /\
  (_init_config cfg).2 !! "AUTH_RATE_LIMITED" =
    Some (default (VBool true) (cfg !! "AUTH_RATE_LIMITED")) /\
  (_init_config cfg).2 !! "AUTH_RATE_LIMIT" =
    Some (default (VStr "5 per 40 second") (cfg !! "AUTH_RATE_LIMIT")).
Proof.
  intros Hl. rewrite (init_config_eq cfg). cbv zeta. rewrite Hl. cbn [fst snd].
  split; [reflexivity|]. split; [|split].
  - intros k [v Hk].
    table_key Hk; try discriminate Hk; rewrite !lookup_apply_defaults;
      match goal with |- context [cfg !! ?key] => destruct (cfg !! key) end;
      reflexivity.
  - rewrite !lookup_apply_defaults.
    destruct (cfg !! "AUTH_RATE_LIMITED"); reflexivity.
  - rewrite !lookup_apply_defaults.
    destruct (cfg !! "AUTH_RATE_LIMIT"); reflexivity.
Qed.

(** X12.  The registration role defaults to the public role as configured,
    not to the literal "Public": when [AUTH_USER_REGISTRATION_ROLE] has no
    value, after [_init_config] (returning or raising) it equals
    [AUTH_ROLE_PUBLIC], which is the configured value or "Public". *)
Theorem init_config_registration_role (cfg : Config) :
  cfg !! "AUTH_USER_REGISTRATION_ROLE" = None ->
  (_init_config cfg).2 !! "AUTH_USER_REGISTRATION_ROLE" =
    (_init_config cfg).2 !! "AUTH_ROLE_PUBLIC" /\
  (_init_config cfg).2 !! "AUTH_ROLE_PUBLIC" =
    Some (default (VStr "Public") (cfg !! "AUTH_ROLE_PUBLIC")).
Proof.
  intros Hr.
  init_config_cases cfg; rewrite !lookup_apply_defaults, Hr;
    destruct (cfg !! "AUTH_ROLE_PUBLIC"); split; reflexivity.
Qed.

(** What a normal return of [_init_config] leaves under the keys that the
    properties read. *)
Lemma init_config_reads (cfg : Config) :
  (_init_config cfg).1 = Ok tt ->
  (_init_config cfg).2 !! "AUTH_TYPE" =
    Some (default (VInt AUTH_DB) (cfg !! "AUTH_TYPE")) /\
  is_Some ((_init_config cfg).2 !! "AUTH_ROLE_PUBLIC") /\
  is_Some ((_init_config cfg).2 !! "AUTH_USER_REGISTRATION") /\
  is_Some ((_init_config cfg).2 !! "AUTH_RATE_LIMITED") /\
  is_Some ((_init_config cfg).2 !! "AUTH_RATE_LIMIT") /\
  (_init_config cfg).2 !! "OAUTH_PROVIDERS" = cfg !! "OAUTH_PROVIDERS".
Proof.
  init_config_cases cfg; try discriminate; intros _;
    rewrite !lookup_apply_defaults;
    destruct (cfg !! "AUTH_TYPE"), (cfg !! "AUTH_ROLE_PUBLIC"),
      (cfg !! "AUTH_USER_REGISTRATION"), (cfg !! "AUTH_RATE_LIMITED"),
      (cfg !! "AUTH_RATE_LIMIT"), (cfg !! "OAUTH_PROVIDERS");
    repeat split; eauto.
Qed.

(** X13.  After a normal return of [_init_config] the properties
    [auth_type], [auth_role_public], [auth_user_registration],
    [is_auth_limited] and [auth_rate_limit] read their keys without
    [KeyError]; [auth_type] is the configured value or [AUTH_DB].
    [OAUTH_PROVIDERS] gets no default: [oauth_providers] is as before. *)
Theorem init_config_properties_readable (cfg : Config) :
  (_init_config cfg).1 = Ok tt ->
  auth_type (_init_config cfg).2 =
    Ok (default (VInt AUTH_DB) (cfg !! "AUTH_TYPE")) /\
  is_ok (auth_role_public (_init_config cfg).2) = true /\
  is_ok (auth_user_registration (_init_config cfg).2) = true /\
  is_ok (is_auth_limited (_init_config cfg).2) = true /\
  is_ok (auth_rate_limit (_init_config cfg).2) = true /\
  oauth_providers (_init_config cfg).2 = oauth_providers cfg.
Proof.
  intros Hok.
  destruct (init_config_reads cfg Hok)
    as (Ht & [p Hp] & [r Hr] & [l Hl] & [a Ha] & Ho).
  unfold auth_type, auth_role_public, auth_user_registration, is_auth_limited,
    auth_rate_limit, oauth_providers, config_item.
  rewrite Ht, Hp, Hr, Hl, Ha, Ho. repeat split; reflexivity.
Qed.

(** ** Authentication initialisation, beyond the allow-list of one start *)

Lemma for_each_provider_state (ps : list Provider) (m : Manager) :
  for_each_provider ps m =
  (Ok tt,
   mkManager (oid m) (oauth m)
     (register_remotes ps (oauth_remotes m))
     (oauth_user_info m || match ps with [] => false | _ => true end)
     (register_allow_lists ps (oauth_allow_list m))).
Proof.
  revert m. induction ps as [|p ps IH]; intros m.
  - destruct m as [a b c d e]. cbn. rewrite orb_false_r. reflexivity.
  - cbn [for_each_provider].
    unfold mbind, mret, M_bind, M_ret, bind, ret, modify, gets.
    destruct m as [a b c d e]. cbn [oauth_user_info].
    destruct d; cbn [negb]; destruct (whitelist p) as [wl|] eqn:Ew;
      rewrite IH; cbn; rewrite ?Ew, ?orb_true_r; reflexivity.
Qed.

(** [_init_auth], branch by branch. *)
Lemma init_auth_eq (cfg : Config) (m : Manager) :
  _init_auth cfg m =
  match cfg !! "AUTH_TYPE" with
  | None => (Raise (KeyError "AUTH_TYPE"), m)
  | Some t =>
      let m1 := if eq_int t AUTH_OID then set_oid m else m in
      if eq_int t AUTH_OAUTH then
        let m2 := set_oauth_remotes (fun _ => ∅) (set_oauth m1) in
        match cfg !! "OAUTH_PROVIDERS" with
        | None => (Raise (KeyError "OAUTH_PROVIDERS"), m2)
        | Some (VProviders ps) => for_each_provider ps m2
        | Some (VDict []) | Some (VStr EmptyString) => (Ok tt, m2)
        | Some _ => (Raise TypeError, m2)
        end
      else (Ok tt, m1)
  end.
Proof.
  unfold _init_auth, for_each_of, auth_type, oauth_providers, config_item,
    mbind, mret, M_bind, M_ret, bind, ret, modify, lift, raise.
  destruct (cfg !! "AUTH_TYPE") as [t|]; [|reflexivity]. cbv zeta.
  destruct (eq_int t AUTH_OID), (eq_int t AUTH_OAUTH); try reflexivity;
    destruct (cfg !! "OAUTH_PROVIDERS") as [[| | |[]|[]|]|]; reflexivity.
Qed.

Lemma register_allow_lists_undeclared (ps : list Provider) (n : string)
    (r : gmap string (list string)) :
  (forall p, p ∈ ps -> name p = n -> whitelist p = None) ->
  register_allow_lists ps r !! n = r !! n.
Proof.
  revert r. induction ps as [|q ps IH]; intros r H; [reflexivity|].
  rewrite register_allow_lists_cons, IH
    by (intros p Hp; apply H; right; exact Hp).
  destruct (whitelist q) as [wl|] eqn:Ew; [|reflexivity].
  apply lookup_insert_ne. intros Hq.
  specialize (H q ltac:(left) Hq). congruence.
Qed.

(** X14.  The allow-list registry is never reset: whatever the
    configuration and the outcome of [_init_auth], a name that had an
    allow-list before still has one afterwards, and it has the same one
    unless a provider of that name declares a list.  So a provider that is
    registered again without an allow-list stays restricted by the old
    one. *)
Theorem init_auth_registry_persists (cfg : Config) (m : Manager) (n : string)
    (wl : list string) :
  oauth_allow_list m !! n = Some wl ->
  is_Some (oauth_allow_list (_init_auth cfg m).2 !! n) /\
  ((forall ps p, cfg !! "OAUTH_PROVIDERS" = Some (VProviders ps) ->
                 p ∈ ps -> name p = n -> whitelist p = None) ->
   oauth_allow_list (_init_auth cfg m).2 !! n = Some wl /\
   forall identity,
     is_allowed (oauth_allow_list (_init_auth cfg m).2) n identity =
     bool_decide (identity ∈ wl)).
Proof.
  intros Hn. rewrite init_auth_eq.
  destruct (cfg !! "AUTH_TYPE") as [t|]; cbv zeta.
  2: { cbn [snd]. rewrite Hn. split; [eauto|]. intros _. split; [reflexivity|].
       intros identity. unfold is_allowed. rewrite Hn. reflexivity. }
  assert (Hsame : forall m' : Manager,
            oauth_allow_list m' !! n = Some wl ->
            is_Some (oauth_allow_list m' !! n) /\
            (oauth_allow_list m' !! n = Some wl /\
             forall identity, is_allowed (oauth_allow_list m') n identity =
                              bool_decide (identity ∈ wl))).
  { intros m' H. split; [eauto|]. split; [exact H|].
    intros identity. unfold is_allowed. rewrite H. reflexivity. }
  assert (H1 : oauth_allow_list (if eq_int t AUTH_OID then set_oid m else m)
               = oauth_allow_list m) by (destruct (eq_int t AUTH_OID); reflexivity).
  destruct (eq_int t AUTH_OAUTH).
  - destruct (cfg !! "OAUTH_PROVIDERS") as [v|] eqn:Ep.
    + destruct v as [| | |[]|[]|ps];
        try (cbn [snd]; destruct (Hsame _ ltac:(cbn; rewrite H1; exact Hn));
             split; [assumption|intros _; assumption]).
      rewrite for_each_provider_state. cbn [snd oauth_allow_list].
      change (oauth_allow_list
                (set_oauth_remotes (fun _ => ∅)
                   (set_oauth (if eq_int t AUTH_OID then set_oid m else m))))
        with (oauth_allow_list (if eq_int t AUTH_OID then set_oid m else m)).
      rewrite H1. split.
      * apply register_allow_lists_keeps. rewrite Hn. eauto.
      * intros Hno.
        assert (Hl : register_allow_lists ps (oauth_allow_list m) !! n = Some wl).
        { rewrite register_allow_lists_undeclared; [exact Hn|].
          intros p Hp Hname. exact (Hno ps p eq_refl Hp Hname). }
        split; [exact Hl|]. intros identity. unfold is_allowed. rewrite Hl.
        reflexivity.
    + cbn [snd]. destruct (Hsame _ ltac:(cbn; rewrite H1; exact Hn)).
      split; [assumption|intros _; assumption].
  - cbn [snd]. destruct (Hsame _ ltac:(rewrite H1; exact Hn)).
    split; [assumption|intros _; assumption].
Qed.

Lemma register_remotes_cons (q : Provider) (ps : list Provider)
    (r : gmap string OAuthRemote) :
  register_remotes (q :: ps) r =
  register_remotes ps (<[name q := mkRemote (name q) (remote_app q) true]> r).
Proof. reflexivity. Qed.

Lemma register_remotes_entry (ps : list Provider) (n : string)
    (ro : OAuthRemote) (r : gmap string OAuthRemote) :
  register_remotes ps r !! n = Some ro ->
  r !! n = Some ro \/
  exists p, p ∈ ps /\ name p = n /\ ro = mkRemote n (remote_app p) true.
Proof.
  revert r. induction ps as [|q ps IH]; intros r H; [left; exact H|].
  rewrite register_remotes_cons in H.
  apply IH in H as [H|(p & Hin & Hn & Hro)].
  - rewrite lookup_insert in H. case_decide as Hq.
    + right. exists q. split; [left|]. split; [exact Hq|].
      rewrite <- Hq. congruence.
    + left. exact H.
  - right. exists p. split; [right; exact Hin|]. split; assumption.
Qed.

Lemma register_remotes_keeps (ps : list Provider) (n : string)
    (r : gmap string OAuthRemote) :
  is_Some (r !! n) -> is_Some (register_remotes ps r !! n).
Proof.
  revert r. induction ps as [|q ps IH]; intros r H; [exact H|].
  rewrite register_remotes_cons. apply IH.
  rewrite lookup_insert. case_decide; [eauto|exact H].
Qed.

Lemma register_remotes_named (ps : list Provider) (p : Provider)
    (r : gmap string OAuthRemote) :
  p ∈ ps -> is_Some (register_remotes ps r !! name p).
Proof.
  revert r. induction ps as [|q ps IH]; intros r Hin; [inversion Hin|].
  rewrite register_remotes_cons.
  apply elem_of_cons in Hin as [->|Hin]; [|apply IH; exact Hin].
  apply register_remotes_keeps. rewrite lookup_insert_eq. eauto.
Qed.

(** X15.  With auth type OAUTH, [oauth_remotes] is rebuilt from the
    providers alone, whatever it held before: afterwards it has an entry
    exactly for the names of the providers, each entry carries that name,
    the remote-app settings of a provider of that name, and the token
    getter; and [oauth_user_info] is set as soon as there is a provider. *)
Theorem init_auth_remotes_rebuilt (cfg : Config) (m : Manager)
    (ps : list Provider) :
  cfg !! "AUTH_TYPE" = Some (VInt AUTH_OAUTH) ->
  cfg !! "OAUTH_PROVIDERS" = Some (VProviders ps) ->
  (forall n, is_Some (oauth_remotes (_init_auth cfg m).2 !! n) <->
             n ∈ name <$> ps) /\
  (forall n ro, oauth_remotes (_init_auth cfg m).2 !! n = Some ro ->
     remote_name ro = n /\ _tokengetter ro = true /\
     exists p, p ∈ ps /\ name p = n /\ remote_settings ro = remote_app p) /\
  oauth (_init_auth cfg m).2 = true /\
  (ps <> [] -> oauth_user_info (_init_auth cfg m).2 = true).
Proof.
  intros Ht Hp. rewrite init_auth_eq, Ht, Hp. cbv zeta.
  change (eq_int (VInt AUTH_OAUTH) AUTH_OID) with false.
  change (eq_int (VInt AUTH_OAUTH) AUTH_OAUTH) with true. cbv iota.
  rewrite for_each_provider_state. cbn [snd oauth_remotes oauth oauth_user_info].
  change (oauth_remotes (set_oauth_remotes (fun _ => ∅) (set_oauth m)))
    with (∅ : gmap string OAuthRemote).
  assert (Hentry : forall n ro,
            register_remotes ps ∅ !! n = Some ro ->
            exists p, p ∈ ps /\ name p = n /\
                      ro = mkRemote n (remote_app p) true).
  { intros n ro H. apply register_remotes_entry in H as [H|H]; [|exact H].
    rewrite lookup_empty in H. discriminate H. }
  split; [|split; [|split]].
  - intros n. split.
    + intros [ro H]. destruct (Hentry n ro H) as (p & Hin & <- & _).
      apply list_elem_of_fmap_2. exact Hin.
    + intros Hn. apply list_elem_of_fmap in Hn as (p & -> & Hin).
      apply register_remotes_named. exact Hin.
  - intros n ro H. destruct (Hentry n ro H) as (p & Hin & Hn & ->).
    cbn. split; [reflexivity|]. split; [reflexivity|]. eauto.
  - reflexivity.
  - intros Hne. destruct ps; [contradiction|]. apply orb_true_r.
Qed.

(** X16.  [_init_config] followed by [_init_auth], as in [__init__]: after
    a normal return of [_init_config] the auth type is always readable, so
    [_init_auth] only fails on the providers.  With an auth type other
    than OAUTH (a missing [AUTH_TYPE] counts as [AUTH_DB]) it returns
    normally; with OAUTH and a list of providers it returns normally; with
    OAUTH and no [OAUTH_PROVIDERS] entry it raises [KeyError]. *)
Theorem init_config_then_init_auth (cfg : Config) (m : Manager) :
  (_init_config cfg).1 = Ok tt ->
  let t := default (VInt AUTH_DB) (cfg !! "AUTH_TYPE") in
  (eq_int t AUTH_OAUTH = false ->
   _init_auth (_init_config cfg).2 m =
     (Ok tt, if eq_int t AUTH_OID then set_oid m else m)) /\
  (eq_int t AUTH_OAUTH = true ->
   (forall ps, cfg !! "OAUTH_PROVIDERS" = Some (VProviders ps) ->
               (_init_auth (_init_config cfg).2 m).1 = Ok tt) /\
   (cfg !! "OAUTH_PROVIDERS" = None ->
    (_init_auth (_init_config cfg).2 m).1 = Raise (KeyError "OAUTH_PROVIDERS"))).
Proof.
  intros Hok t.
  destruct (init_config_reads cfg Hok) as (Ht & _ & _ & _ & _ & Hp).
  fold t in Ht. rewrite init_auth_eq, Ht, Hp. cbv zeta. split.
  - intros ->. reflexivity.
  - intros ->. split.
    + intros ps ->. rewrite for_each_provider_state. reflexivity.
    + intros ->. reflexivity.
Qed.

(** ** View registration *)

Lemma call_eq (c : AppCall) (s : ViewState) :
  call c s =
  (Ok tt, mkViewState (registeruser_view s) (auth_view s) (user_view s)
            (appcalls s ++ [c])).
Proof. reflexivity. Qed.

Lemma modify_eq {S} (f : S -> S) (s : S) : modify f s = (Ok tt, f s).
Proof. reflexivity. Qed.

Lemma if_call (b : bool) (c : AppCall) (s : ViewState) :
  (if b then call c else mret tt) s =
  (Ok tt, mkViewState (registeruser_view s) (auth_view s) (user_view s)
            (appcalls s ++ (if b then [c] else []))).
Proof. destruct b, s; cbn; rewrite ?app_nil_r; reflexivity. Qed.

Lemma backend_views_eq {S} (cfg : Config) (t : CfgVal) (s : S) :
  auth_type cfg = Ok t -> backend_views cfg s = (Ok (backend_of t), s).
Proof.
  intros Ht. unfold backend_views, backend_of, mbind, M_bind, bind, lift, ret.
  rewrite Ht.
  destruct (eq_int t AUTH_DB), (eq_int t AUTH_LDAP), (eq_int t AUTH_OAUTH),
    (eq_int t AUTH_REMOTE_USER); reflexivity.
Qed.

Lemma registration_view_if (cfg : Config) (t : CfgVal) (b : bool)
    (s : ViewState) :
  auth_type cfg = Ok t ->
  (if b then registration_view cfg else mret tt) s =
  let rv := if b
            then match registration_view_of t with
                 | Some c => Some (Instance c)
                 | None => registeruser_view s
                 end
            else registeruser_view s in
  (Ok tt, mkViewState rv (auth_view s) (user_view s)
            (appcalls s ++
             (if b then match rv with
                        | Some v => [add_view_no_menu v]
                        | None => []
                        end
              else []))).
Proof.
  intros Ht. destruct s as [rv0 av uv cs]. destruct b.
  - unfold registration_view, registration_view_of, call,
      mbind, mret, M_bind, M_ret, bind, ret, modify, gets, lift.
    rewrite Ht.
    destruct (eq_int t AUTH_DB), (eq_int t AUTH_OID), (eq_int t AUTH_OAUTH), rv0;
      cbn; rewrite ?app_nil_r; reflexivity.
  - cbn. rewrite app_nil_r. reflexivity.
Qed.

(** A complete run of [register_views]: the security views are enabled and
    the properties it reads have their keys. *)
Lemma register_views_complete (cfg : Config) (stats : bool) (s : ViewState)
    (registration t limited rate : CfgVal) :
  truthy (config_get cfg "FAB_ADD_SECURITY_VIEWS" (VBool true)) = true ->
  auth_user_registration cfg = Ok registration ->
  auth_type cfg = Ok t ->
  is_auth_limited cfg = Ok limited ->
  (truthy limited = true -> auth_rate_limit cfg = Ok rate) ->
  let rv := if truthy registration
            then match registration_view_of t with
                 | Some c => Some (Instance c)
                 | None => registeruser_view s
                 end
            else registeruser_view s in
  register_views cfg stats s =
  (Ok tt,
   mkViewState rv (Some (Instance (backend_of t).2))
     (Some (UserViewInstance (backend_of t).1))
     (appcalls s ++
      view_calls (truthy registration) t (truthy limited) rate stats rv
        (truthy (config_get cfg "FAB_ADD_SECURITY_PERMISSION_VIEW" (VBool true)))
        (truthy (config_get cfg "FAB_ADD_SECURITY_VIEW_MENU_VIEW" (VBool true)))
        (truthy (config_get cfg "FAB_ADD_SECURITY_PERMISSION_VIEWS_VIEW"
                   (VBool true))))).
Proof.
  intros He Hr Ht Hl Hrate rv.
  assert (Hlim : forall s0 : ViewState,
            (if truthy limited
             then fun s1 : ViewState =>
                    match auth_rate_limit cfg with
                    | Ok a => call (limit a ["POST"] (Instance (backend_of t).2)) s1
                    | Raise e => (Raise e, s1)
                    end
             else (mret tt : M ViewState unit)) s0 =
            (if truthy limited
             then call (limit rate ["POST"] (Instance (backend_of t).2))
             else mret tt) s0).
  { intros s0. destruct (truthy limited); [|reflexivity].
    rewrite (Hrate eq_refl). reflexivity. }
  unfold register_views. rewrite He. cbn [negb].
  unfold mbind, M_bind, bind, lift. rewrite Hr, Hl.
  rewrite (registration_view_if cfg t (truthy registration) s Ht).
  cbv zeta beta iota. fold rv.
  repeat (first [ rewrite call_eq | rewrite modify_eq | rewrite if_call
                | rewrite (backend_views_eq cfg t _ Ht) | rewrite Hlim ];
          cbv beta iota;
          cbn [registeruser_view auth_view user_view appcalls fst snd
               set_user_view set_auth_view]).
  unfold view_calls. f_equal. f_equal.
  rewrite <- !app_assoc. cbn [app]. reflexivity.
Qed.

(** Membership in an append of segments, some of them written out. *)
Ltac in_segments :=
  first
    [ solve [apply list_elem_of_In; cbn [In]; auto 10]
    | apply elem_of_app;
      first [ left; solve [apply list_elem_of_In; cbn [In]; auto 10]
            | right; in_segments ] ].

(** X17.  With [FAB_ADD_SECURITY_VIEWS] set to a false value,
    [register_views] returns at once: no view is created or registered and
    no other key is read, so it returns normally even on a configuration
    that lacks [AUTH_USER_REGISTRATION]; with the flag on (or missing) and
    that key missing it raises [KeyError] before registering anything. *)
Theorem register_views_disabled (cfg : Config) (stats : bool) (s : ViewState) :
  (truthy (config_get cfg "FAB_ADD_SECURITY_VIEWS" (VBool true)) = false ->
   register_views cfg stats s = (Ok tt, s)) /\
  (truthy (config_get cfg "FAB_ADD_SECURITY_VIEWS" (VBool true)) = true ->
   cfg !! "AUTH_USER_REGISTRATION" = None ->
   register_views cfg stats s = (Raise (KeyError "AUTH_USER_REGISTRATION"), s)).
Proof.
  split.
  - intros H. unfold register_views. rewrite H. reflexivity.
  - intros H Hn. unfold register_views. rewrite H. cbn [negb].
    unfold mbind, M_bind, bind, lift, auth_user_registration, config_item.
    rewrite Hn. reflexivity.
Qed.

Lemma eq_int_exclusive (t : CfgVal) (a b : Z) :
  eq_int t a = true -> eq_int t b = true -> a = b.
Proof.
  destruct t as [|[]|z| | |]; unfold eq_int; try discriminate;
    intros H1 H2; apply Z.eqb_eq in H1, H2; congruence.
Qed.

(** X18.  In a complete run of [register_views] the authentication view
    and the user view always belong to the same backend, chosen by the
    auth type, and an auth type that is none of DB, LDAP, OAUTH and
    REMOTE_USER gets the OpenID pair.  The authentication view is the one
    registered without menu, the user view class is the one listed as
    "List Users", and the role view is related to that class. *)
Theorem register_views_backend (cfg : Config) (stats : bool) (s : ViewState)
    (registration t limited rate : CfgVal) :
  truthy (config_get cfg "FAB_ADD_SECURITY_VIEWS" (VBool true)) = true ->
  auth_user_registration cfg = Ok registration ->
  auth_type cfg = Ok t ->
  is_auth_limited cfg = Ok limited ->
  (truthy limited = true -> auth_rate_limit cfg = Ok rate) ->
  let s' := (register_views cfg stats s).2 in
  exists user_class auth_class,
    (user_class, auth_class) ∈
      [(userdbmodelview, authdbview); (userldapmodelview, authldapview);
       (useroauthmodelview, authoauthview);
       (userremoteusermodelview, authremoteuserview);
       (useroidmodelview, authoidview)] /\
    user_view s' = Some (UserViewInstance user_class) /\
    auth_view s' = Some (Instance auth_class) /\
    (exists calls, appcalls s' = appcalls s ++ calls /\
       add_view_no_menu (Instance auth_class) ∈ calls /\
       add_view user_class "List Users" "fa-user" "List Users" "Security"
         (Some "fa-cogs") (Some "Security") ∈ calls /\
       set_related_views rolemodelview [user_class] ∈ calls) /\
    (eq_int t AUTH_DB = true -> user_class = userdbmodelview) /\
    (eq_int t AUTH_LDAP = true -> user_class = userldapmodelview) /\
    (eq_int t AUTH_OAUTH = true -> user_class = useroauthmodelview) /\
    (eq_int t AUTH_REMOTE_USER = true -> user_class = userremoteusermodelview) /\
    (eq_int t AUTH_DB = false -> eq_int t AUTH_LDAP = false ->
     eq_int t AUTH_OAUTH = false -> eq_int t AUTH_REMOTE_USER = false ->
     user_class = useroidmodelview).
Proof.
  intros He Hr Ht Hl Hrate s'. subst s'.
  rewrite (register_views_complete cfg stats s registration t limited rate)
    by assumption.
  cbv zeta. cbn [snd user_view auth_view appcalls].
  exists (backend_of t).1, (backend_of t).2.
  split; [|split; [reflexivity|split; [reflexivity|split]]].
  - unfold backend_of.
    destruct (eq_int t AUTH_DB), (eq_int t AUTH_LDAP), (eq_int t AUTH_OAUTH),
      (eq_int t AUTH_REMOTE_USER); cbn [fst snd]; elem_of_concrete.
  - eexists. split; [reflexivity|]. unfold view_calls.
    split; [|split]; in_segments.
  - unfold backend_of.
    destruct (eq_int t AUTH_DB) eqn:H1, (eq_int t AUTH_LDAP) eqn:H2,
      (eq_int t AUTH_OAUTH) eqn:H3, (eq_int t AUTH_REMOTE_USER) eqn:H4;
      cbn [fst snd]; repeat split; intros; try reflexivity; try discriminate;
      match goal with
      | Ha : eq_int t ?a = true, Hb : eq_int t ?b = true |- _ =>
          assert_fails (constr_eq a b);
          pose proof (eq_int_exclusive t a b Ha Hb); discriminate
      end.
Qed.

(** X19.  In a complete run of [register_views] the limiter is called
    exactly when [AUTH_RATE_LIMITED] is true; it is then called once, with
    the configured rate, for POST, on the blueprint of the authentication
    view, and directly after that view has been registered. *)
Theorem register_views_limiter (cfg : Config) (stats : bool) (s : ViewState)
    (registration t limited rate : CfgVal) :
  truthy (config_get cfg "FAB_ADD_SECURITY_VIEWS" (VBool true)) = true ->
  auth_user_registration cfg = Ok registration ->
  auth_type cfg = Ok t ->
  is_auth_limited cfg = Ok limited ->
  (truthy limited = true -> auth_rate_limit cfg = Ok rate) ->
  exists (av : View) (pre post : list AppCall),
    auth_view (register_views cfg stats s).2 = Some av /\
    appcalls (register_views cfg stats s).2 =
      appcalls s ++ pre ++ [add_view_no_menu av] ++
      (if truthy limited then [limit rate ["POST"] av] else []) ++ post /\
    Forall (fun c => is_limit c = false) pre /\
    Forall (fun c => is_limit c = false) post.
Proof.
  intros He Hr Ht Hl Hrate.
  rewrite (register_views_complete cfg stats s registration t limited rate)
    by assumption.
  cbv zeta. cbn [snd auth_view appcalls]. unfold view_calls.
  match goal with
  | |- context [appcalls s ++ ?A ++ _] =>
      exists (Instance (backend_of t).2),
        (A ++ [add_view_no_menu (Instance resetpasswordview);
               add_view_no_menu (Instance resetmypasswordview);
               add_view_no_menu (Instance userinfoeditview)]);
      eexists; split; [reflexivity|]; split;
        [rewrite <- (app_assoc A); cbn [app]; reflexivity|]
  end.
  split.
  - apply Forall_app. split; [|repeat constructor].
    repeat match goal with
           | |- context [if ?b then _ else _] => destruct b
           | |- context [match ?o with Some _ => _ | None => _ end] =>
               destruct o
           end; repeat constructor.
  - repeat (apply Forall_app; split);
      repeat match goal with
             | |- context [if ?b then _ else _] => destruct b
             end; repeat constructor.
Qed.

(** X20.  With self-registration on, a registration view is created only
    for the auth types DB, OID and OAUTH.  For LDAP, REMOTE_USER or any
    other auth type [registeruser_view] stays as it was given, and if none
    was given the first view registered is the reset-password view; the
    "User Registrations" menu entry is added all the same. *)
Theorem register_views_registration (cfg : Config) (stats : bool)
    (s : ViewState) (registration t limited rate : CfgVal) :
  truthy (config_get cfg "FAB_ADD_SECURITY_VIEWS" (VBool true)) = true ->
  auth_user_registration cfg = Ok registration ->
  auth_type cfg = Ok t ->
  is_auth_limited cfg = Ok limited ->
  (truthy limited = true -> auth_rate_limit cfg = Ok rate) ->
  truthy registration = true ->
  exists calls,
    appcalls (register_views cfg stats s).2 = appcalls s ++ calls /\
    add_view registerusermodelview "User's Statistics" "fa-user-plus"
      "User Registrations" "Security" None None ∈ calls /\
    (eq_int t AUTH_DB = true ->
     registeruser_view (register_views cfg stats s).2 =
       Some (Instance registeruserdbview)) /\
    (eq_int t AUTH_OID = true ->
     registeruser_view (register_views cfg stats s).2 =
       Some (Instance registeruseroidview)) /\
    (eq_int t AUTH_OAUTH = true ->
     registeruser_view (register_views cfg stats s).2 =
       Some (Instance registeruseroauthview)) /\
    (eq_int t AUTH_DB = false -> eq_int t AUTH_OID = false ->
     eq_int t AUTH_OAUTH = false ->
     registeruser_view (register_views cfg stats s).2 = registeruser_view s) /\
    match registeruser_view (register_views cfg stats s).2 with
    | Some v => head calls = Some (add_view_no_menu v)
    | None => head calls = Some (add_view_no_menu (Instance resetpasswordview))
    end.
Proof.
  intros He Hr Ht Hl Hrate Hreg.
  rewrite (register_views_complete cfg stats s registration t limited rate)
    by assumption.
  cbv zeta. cbn [snd registeruser_view appcalls]. rewrite Hreg.
  eexists. split; [reflexivity|]. unfold view_calls.
  split; [in_segments|].
  unfold registration_view_of.
  destruct (eq_int t AUTH_DB) eqn:H1, (eq_int t AUTH_OID) eqn:H2,
    (eq_int t AUTH_OAUTH) eqn:H3;
    repeat split; intros; try reflexivity; try discriminate;
    try match goal with
        | Ha : eq_int t ?a = true, Hb : eq_int t ?b = true |- _ =>
            assert_fails (constr_eq a b);
            pose proof (eq_int_exclusive t a b Ha Hb); discriminate
        end.
  destruct (registeruser_view s); reflexivity.
Qed.

(** ** Data models *)

(** A run of [_init_data_model] that reads its two properties. *)
Lemma init_data_model_complete (cfg : Config) (stats : bool) (dm : DataModels)
    (registration t : CfgVal) :
  auth_type cfg = Ok t ->
  auth_user_registration cfg = Ok registration ->
  exists dm' : DataModels,
    _init_data_model cfg stats dm = (Ok tt, dm') /\
    forall c,
      dm' c =
      if bool_decide (c = permissionmodelview) then Some permission_model
      else if bool_decide (c = resourcemodelview) then Some resource_model
      else if bool_decide (c = actionmodelview) then Some action_model
      else if bool_decide (c = rolemodelview) then Some role_model
      else if truthy registration && bool_decide (c = registerusermodelview)
           then Some registeruser_model
      else if stats && bool_decide (c = userstatschartview)
           then Some user_model
      else match datamodel_view_of t with
           | Some c0 => if bool_decide (c = c0) then Some user_model else dm c
           | None => dm c
           end.
Proof.
  intros Ht Hr.
  unfold _init_data_model, datamodel_view_of, set_datamodel,
    mbind, mret, M_bind, M_ret, bind, ret, modify, lift.
  rewrite Ht, Hr. cbv zeta.
  destruct (eq_int t AUTH_DB), (eq_int t AUTH_LDAP), (eq_int t AUTH_OID),
    (eq_int t AUTH_OAUTH), (eq_int t AUTH_REMOTE_USER),
    (truthy registration), stats;
    (eexists; split; [reflexivity|]; intros c; cbn [andb]; reflexivity).
Qed.

(** X21.  After a normal return of [_init_config], as in [__init__],
    neither [_init_data_model] nor [register_views] can raise: every key
    they read has been given a value. *)
Theorem init_config_then_views (cfg0 : Config) (stats : bool)
    (dm : DataModels) (s : ViewState) :
  (_init_config cfg0).1 = Ok tt ->
  (_init_data_model (_init_config cfg0).2 stats dm).1 = Ok tt /\
  (register_views (_init_config cfg0).2 stats s).1 = Ok tt.
Proof.
  intros Hok.
  destruct (init_config_reads cfg0 Hok)
    as (Ht & _ & [registration Hr] & [limited Hl] & [rate Ha] & _).
  set (cfg := (_init_config cfg0).2) in *.
  assert (Et : auth_type cfg = Ok (default (VInt AUTH_DB) (cfg0 !! "AUTH_TYPE")))
    by (unfold auth_type, config_item; rewrite Ht; reflexivity).
  assert (Er : auth_user_registration cfg = Ok registration)
    by (unfold auth_user_registration, config_item; rewrite Hr; reflexivity).
  assert (El : is_auth_limited cfg = Ok limited)
    by (unfold is_auth_limited, config_item; rewrite Hl; reflexivity).
  assert (Ea : auth_rate_limit cfg = Ok rate)
    by (unfold auth_rate_limit, config_item; rewrite Ha; reflexivity).
  split.
  - destruct (init_data_model_complete cfg stats dm registration _ Et Er)
      as (dm' & -> & _). reflexivity.
  - destruct (truthy (config_get cfg "FAB_ADD_SECURITY_VIEWS" (VBool true)))
      eqn:He.
    + rewrite (register_views_complete cfg stats s registration _ limited rate
                 He Er Et El (fun _ => Ea)). reflexivity.
    + unfold register_views. rewrite He. reflexivity.
Qed.

(** X22.  The user view that [register_views] lists has been given the
    user data model by [_init_data_model] exactly when the auth type is one
    of DB, LDAP, OID, OAUTH and REMOTE_USER.  For any other auth type
    [register_views] falls back to the OpenID user view, and
    [_init_data_model], whose chain has no [else], leaves the data model of
    that class as it was. *)
Theorem user_view_datamodel (cfg : Config) (stats : bool) (s : ViewState)
    (dm : DataModels) (registration t limited rate : CfgVal) :
  truthy (config_get cfg "FAB_ADD_SECURITY_VIEWS" (VBool true)) = true ->
  auth_user_registration cfg = Ok registration ->
  auth_type cfg = Ok t ->
  is_auth_limited cfg = Ok limited ->
  (truthy limited = true -> auth_rate_limit cfg = Ok rate) ->
  exists c,
    user_view (register_views cfg stats s).2 = Some (UserViewInstance c) /\
    (eq_int t AUTH_DB || eq_int t AUTH_LDAP || eq_int t AUTH_OID
     || eq_int t AUTH_OAUTH || eq_int t AUTH_REMOTE_USER = true ->
     (_init_data_model cfg stats dm).2 c = Some user_model) /\
    (eq_int t AUTH_DB || eq_int t AUTH_LDAP || eq_int t AUTH_OID
     || eq_int t AUTH_OAUTH || eq_int t AUTH_REMOTE_USER = false ->
     c = useroidmodelview /\
     (_init_data_model cfg stats dm).2 c = dm c).
Proof.
  intros He Hr Ht Hl Hrate.
  rewrite (register_views_complete cfg stats s registration t limited rate)
    by assumption.
  destruct (init_data_model_complete cfg stats dm registration t Ht Hr)
    as (dm' & -> & Hdm).
  cbv zeta. cbn [snd user_view]. exists (backend_of t).1.
  split; [reflexivity|]. rewrite Hdm. unfold backend_of, datamodel_view_of.
  destruct (eq_int t AUTH_DB) eqn:H1, (eq_int t AUTH_LDAP) eqn:H2,
    (eq_int t AUTH_OID) eqn:H3, (eq_int t AUTH_OAUTH) eqn:H4,
    (eq_int t AUTH_REMOTE_USER) eqn:H5;
    try match goal with
        | Ha : eq_int t ?a = true, Hb : eq_int t ?b = true |- _ =>
            assert_fails (constr_eq a b);
            pose proof (eq_int_exclusive t a b Ha Hb); discriminate
        end;
    cbn [fst snd orb]; (split; intros Hf; try discriminate Hf);
    try reflexivity;
    try (rewrite ?andb_false_r; reflexivity);
    try (split; [reflexivity|]; rewrite ?andb_false_r; reflexivity).
Qed.

(** X23.  A run of [_init_data_model] that reads its properties always
    sets the data models of the role, action, resource and permission
    views; it gives the user data model to at most one of the five user
    views; and it never touches the data model of any other class than
    these, the statistics chart view and the registration model view. *)
Theorem init_data_model_assignments (cfg : Config) (stats : bool)
    (dm : DataModels) (registration t : CfgVal) :
  auth_type cfg = Ok t ->
  auth_user_registration cfg = Ok registration ->
  let dm' := (_init_data_model cfg stats dm).2 in
  dm' rolemodelview = Some role_model /\
  dm' actionmodelview = Some action_model /\
  dm' resourcemodelview = Some resource_model /\
  dm' permissionmodelview = Some permission_model /\
  (forall c1 c2,
     c1 ∈ [userdbmodelview; userldapmodelview; useroidmodelview;
           useroauthmodelview; userremoteusermodelview] ->
     c2 ∈ [userdbmodelview; userldapmodelview; useroidmodelview;
           useroauthmodelview; userremoteusermodelview] ->
     dm' c1 <> dm c1 -> dm' c2 <> dm c2 -> c1 = c2) /\
  (forall c,
     c ∉ [rolemodelview; actionmodelview; resourcemodelview;
          permissionmodelview; registerusermodelview; userstatschartview;
          userdbmodelview; userldapmodelview; useroidmodelview;
          useroauthmodelview; userremoteusermodelview] ->
     dm' c = dm c).
Proof.
  intros Ht Hr dm'. subst dm'.
  destruct (init_data_model_complete cfg stats dm registration t Ht Hr)
    as (dm' & -> & Hdm).
  cbn [snd]. rewrite !Hdm.
  split; [reflexivity|]. split; [reflexivity|]. split; [reflexivity|].
  split; [reflexivity|]. split.
  - intros c1 c2 H1 H2. rewrite !Hdm.
    assert (Hone : forall c,
              c ∈ [userdbmodelview; userldapmodelview; useroidmodelview;
                   useroauthmodelview; userremoteusermodelview] ->
              dm' c <> dm c -> datamodel_view_of t = Some c).
    { intros c Hc. rewrite Hdm.
      apply list_elem_of_In in Hc. cbn [In] in Hc.
      destruct Hc as [<-|[<-|[<-|[<-|[<-|[]]]]]];
        repeat (rewrite bool_decide_eq_false_2 by discriminate);
        rewrite !andb_false_r;
        (destruct (datamodel_view_of t) as [c0|]; [|congruence]);
        (case_bool_decide; [congruence|congruence]). }
    rewrite <- !Hdm. intros Hc1 Hc2.
    pose proof (Hone c1 H1 Hc1). pose proof (Hone c2 H2 Hc2). congruence.
  - intros c Hc.
    assert (Hne : forall c', c' ∈ [rolemodelview; actionmodelview;
                resourcemodelview; permissionmodelview; registerusermodelview;
                userstatschartview; userdbmodelview; userldapmodelview;
                useroidmodelview; useroauthmodelview; userremoteusermodelview]
              -> c <> c').
    { intros c' Hc' ->. contradiction. }
    rewrite Hdm.
    rewrite !bool_decide_eq_false_2, !andb_false_r
      by (apply Hne; elem_of_concrete).
    unfold datamodel_view_of.
    repeat match goal with
           | |- context [if eq_int t ?a then _ else _] =>
               destruct (eq_int t a)
           end;
      rewrite ?bool_decide_eq_false_2 by (apply Hne; elem_of_concrete);
      reflexivity.
Qed.

(** X24.  When [AUTH_USER_REGISTRATION] is missing, [_init_data_model]
    raises [KeyError] half way: the user views have been dealt with, and
    the data models of the role, action, resource and permission views are
    left as they were. *)
Theorem init_data_model_missing_key (cfg : Config) (stats : bool)
    (dm : DataModels) (t : CfgVal) :
  auth_type cfg = Ok t ->
  cfg !! "AUTH_USER_REGISTRATION" = None ->
  (_init_data_model cfg stats dm).1 = Raise (KeyError "AUTH_USER_REGISTRATION") /\
  forall c, c ∈ [rolemodelview; actionmodelview; resourcemodelview;
                 permissionmodelview; registerusermodelview] ->
            (_init_data_model cfg stats dm).2 c = dm c.
Proof.
  intros Ht Hn.
  unfold _init_data_model, set_datamodel, auth_user_registration, config_item,
    mbind, mret, M_bind, M_ret, bind, ret, modify, lift.
  rewrite Ht, Hn. cbv zeta.
  destruct (eq_int t AUTH_DB), (eq_int t AUTH_LDAP), (eq_int t AUTH_OID),
    (eq_int t AUTH_OAUTH), (eq_int t AUTH_REMOTE_USER), stats;
    (split; [reflexivity|]; intros c Hc;
     apply list_elem_of_In in Hc; cbn [In] in Hc;
     destruct Hc as [<-|[<-|[<-|[<-|[<-|[]]]]]]; reflexivity).
Qed.

(** ** The scenarios of the further properties, evaluated *)

Lemma reset_user_sessions_keeps_text_ids_witness :
  anonymous_session 1 ∈
  sessions (reset_user_sessions example_loads alice
              (world_of AirflowDatabaseSessionInterface
                 [anonymous_session 1; session_of 2 7])).2.
Proof.
  apply (reset_user_sessions_keeps_text_ids example_loads alice _ _ ∅).
  - left.
  - reflexivity.
  - left. reflexivity.
Defined.

Lemma reset_user_sessions_ok_complete_witness :
  Forall (fun r => loadable example_loads r = true) five_sessions /\
  forall r,
    r ∈ sessions (reset_user_sessions example_loads alice
                    (world_of AirflowDatabaseSessionInterface five_sessions)).2 ->
    owned_by example_loads alice r = false.
Proof.
  apply (reset_user_sessions_ok_complete example_loads alice
           (world_of AirflowDatabaseSessionInterface five_sessions)).
  - reflexivity.
  - apply Z_le_intro. vm_compute. reflexivity.
  - vm_compute. reflexivity.
Defined.

Lemma reset_user_sessions_twice_witness :
  (reset_user_sessions example_loads alice
     (reset_user_sessions example_loads alice
        (world_of AirflowDatabaseSessionInterface five_sessions)).2).1 = Ok tt /\
  sessions
    (reset_user_sessions example_loads alice
       (reset_user_sessions example_loads alice
          (world_of AirflowDatabaseSessionInterface five_sessions)).2).2 =
  sessions
    (reset_user_sessions example_loads alice
       (world_of AirflowDatabaseSessionInterface five_sessions)).2.
Proof.
  apply (reset_user_sessions_twice example_loads alice
           (world_of AirflowDatabaseSessionInterface five_sessions)).
  - reflexivity.
  - repeat constructor.
Defined.

Lemma reset_password_unknown_user_witness :
  reset_password example_hash example_loads 8 "new"
    (world_of AirflowDatabaseSessionInterface five_sessions) =
  (Raise AttributeError,
   log_call (CallGetUserById 8)
     (world_of AirflowDatabaseSessionInterface five_sessions)).
Proof.
  apply reset_password_unknown_user. reflexivity.
Defined.

(** A no-break space and a space in front of the text, an ideographic
    space and a line feed behind it. *)
Lemma load_user_padded_witness :
  load_user (unicode := unicode_14_0)
    (PyStr ([0xA0; 0x20] ++ text "9" ++ [0x3000; 0x0A])%N)
    (world_of AirflowDatabaseSessionInterface five_sessions) =
  load_user (unicode := unicode_14_0) (PyStr (text "9"))
    (world_of AirflowDatabaseSessionInterface five_sessions).
Proof.
  apply (load_user_padded (unicode := unicode_14_0)
           [0xA0; 0x20]%N [0x3000; 0x0A]%N (text "9") 9);
    repeat constructor.
Defined.

Lemma init_config_keeps_entries_witness :
  (_init_config ldap_config).2 !! "AUTH_LDAP_UID_FIELD" =
  Some (VStr "sAMAccountName").
Proof.
  apply (init_config_keeps_entries ldap_config "AUTH_LDAP_UID_FIELD").
  reflexivity.
Defined.

Lemma init_config_raise_partial_witness :
  (forall k, is_Some (default_of k (base_defaults VNone)) ->
             is_Some ((_init_config ldap_config_no_server).2 !! k)) /\
  (forall k, is_Some (default_of k (ldap_defaults ++ rate_defaults)) ->
             (_init_config ldap_config_no_server).2 !! k =
             ldap_config_no_server !! k).
Proof.
  apply (init_config_raise_partial ldap_config_no_server
           (Exception no_ldap_server)).
  vm_compute. reflexivity.
Defined.

Lemma init_config_not_ldap_witness :
  (_init_config oauth_config).1 = Ok tt /\
  (_init_config oauth_config).2 !! "AUTH_RATE_LIMIT" =
    Some (VStr "5 per 40 second").
Proof.
  destruct (init_config_not_ldap oauth_config eq_refl) as (H1 & _ & _ & H2).
  split; [exact H1|exact H2].
Defined.

Lemma init_config_registration_role_witness :
  (_init_config viewer_config).2 !! "AUTH_USER_REGISTRATION_ROLE" =
  Some (VStr "Viewer").
Proof.
  destruct (init_config_registration_role viewer_config eq_refl) as [H1 H2].
  rewrite H1. exact H2.
Defined.

Lemma init_config_properties_readable_witness :
  auth_type (_init_config ldap_config).2 = Ok (VInt AUTH_LDAP) /\
  is_ok (auth_rate_limit (_init_config ldap_config).2) = true.
Proof.
  destruct (init_config_properties_readable ldap_config)
    as (H1 & _ & _ & _ & H2 & _).
  - vm_compute. reflexivity.
  - split; [exact H1|exact H2].
Defined.

Lemma init_auth_registry_persists_witness :
  is_allowed (oauth_allow_list (_init_auth google_again_config stale_manager).2)
    "google" "b@x.com" = false.
Proof.
  destruct (init_auth_registry_persists google_again_config stale_manager
              "google" ["a@x.com"] eq_refl) as [_ H].
  destruct H as [_ H]; [|rewrite H; reflexivity].
  intros ps p Hps Hp Hn.
  assert (ps = [mkProvider "google" "google-settings" None]) as ->
    by (vm_compute in Hps; congruence).
  apply list_elem_of_In in Hp. cbn [In] in Hp.
  destruct Hp as [<-|[]]. reflexivity.
Defined.

Lemma init_auth_remotes_rebuilt_witness :
  oauth (_init_auth oauth_config fresh_manager).2 = true /\
  oauth_user_info (_init_auth oauth_config fresh_manager).2 = true.
Proof.
  destruct (init_auth_remotes_rebuilt oauth_config fresh_manager
              example_providers eq_refl eq_refl) as (_ & _ & H1 & H2).
  split; [exact H1|]. apply H2. discriminate.
Defined.

Lemma init_config_then_init_auth_witness :
  (_init_auth (_init_config oauth_config).2 fresh_manager).1 = Ok tt.
Proof.
  destruct (init_config_then_init_auth oauth_config fresh_manager)
    as [_ H].
  - vm_compute. reflexivity.
  - destruct (H eq_refl) as [H1 _]. apply (H1 example_providers). reflexivity.
Defined.

Lemma registration_config_reads :
  truthy (config_get registration_config "FAB_ADD_SECURITY_VIEWS" (VBool true))
    = true /\
  auth_user_registration registration_config = Ok (VBool true) /\
  auth_type registration_config = Ok (VInt AUTH_DB) /\
  is_auth_limited registration_config = Ok (VBool true) /\
  auth_rate_limit registration_config = Ok (VStr "5 per 40 second").
Proof. repeat split; vm_compute; reflexivity. Qed.

Lemma register_views_backend_witness :
  user_view (register_views registration_config true fresh_views).2 =
    Some (UserViewInstance userdbmodelview).
Proof.
  destruct registration_config_reads as (He & Hr & Ht & Hl & Ha).
  destruct (register_views_backend registration_config true fresh_views
              _ _ _ _ He Hr Ht Hl (fun _ => Ha))
    as (uc & ac & _ & Hu & _ & _ & Hdb & _).
  rewrite Hu, (Hdb eq_refl). reflexivity.
Defined.

Lemma register_views_limiter_witness :
  exists (av : View) (pre post : list AppCall),
    appcalls (register_views registration_config true fresh_views).2 =
      pre ++ [add_view_no_menu av;
              limit (VStr "5 per 40 second") ["POST"] av] ++ post.
Proof.
  destruct registration_config_reads as (He & Hr & Ht & Hl & Ha).
  destruct (register_views_limiter registration_config true fresh_views
              _ _ _ _ He Hr Ht Hl (fun _ => Ha))
    as (av & pre & post & _ & H & _).
  exists av, pre, post. exact H.
Defined.

Lemma register_views_registration_witness :
  registeruser_view (register_views registration_config true fresh_views).2 =
    Some (Instance registeruserdbview).
Proof.
  destruct registration_config_reads as (He & Hr & Ht & Hl & Ha).
  destruct (register_views_registration registration_config true fresh_views
              _ _ _ _ He Hr Ht Hl (fun _ => Ha) eq_refl)
    as (calls & _ & _ & Hdb & _).
  apply Hdb. reflexivity.
Defined.

Lemma init_config_then_views_witness :
  (_init_data_model registration_config true (fun _ => None)).1 = Ok tt /\
  (register_views registration_config true fresh_views).1 = Ok tt.
Proof.
  apply (init_config_then_views {["AUTH_USER_REGISTRATION" := VBool true]}).
  vm_compute. reflexivity.
Defined.

Lemma user_view_datamodel_witness :
  exists c,
    user_view (register_views registration_config true fresh_views).2 =
      Some (UserViewInstance c) /\
    (_init_data_model registration_config true (fun _ => None)).2 c =
      Some user_model.
Proof.
  destruct registration_config_reads as (He & Hr & Ht & Hl & Ha).
  destruct (user_view_datamodel registration_config true fresh_views
              (fun _ => None) _ _ _ _ He Hr Ht Hl (fun _ => Ha))
    as (c & Hu & Hk & _).
  exists c. split; [exact Hu|]. apply Hk. reflexivity.
Defined.

Lemma init_data_model_assignments_witness :
  (_init_data_model registration_config true (fun _ => None)).2 rolemodelview =
    Some role_model /\
  (_init_data_model registration_config true (fun _ => None)).2 authdbview =
    None.
Proof.
  destruct registration_config_reads as (_ & Hr & Ht & _).
  destruct (init_data_model_assignments registration_config true
              (fun _ => None) _ _ Ht Hr) as (H1 & _ & _ & _ & _ & H2).
  split; [exact H1|]. apply H2.
  intros H. apply list_elem_of_In in H. cbn [In] in H.
  repeat (destruct H as [H|H]; [discriminate H|]). exact H.
Defined.

Lemma init_data_model_missing_key_witness :
  (_init_data_model bare_config false (fun _ => None)).1 =
    Raise (KeyError "AUTH_USER_REGISTRATION") /\
  (_init_data_model bare_config false (fun _ => None)).2 rolemodelview = None.
Proof.
  destruct (init_data_model_missing_key bare_config false (fun _ => None)
              (VInt AUTH_DB) eq_refl eq_refl) as [H1 H2].
  split; [exact H1|]. apply H2. left.
Defined.
